(** * india_weather_forcast.py: fetch, merge and persist of forecast tables

    A shallow embedding of [get_weather_data], [save_weather_data] and the
    [__main__] driver of [india_weather_forcast.py], together with the parts
    of Python, [requests] and [pandas] the three of them call.

    - Python objects decoded from the JSON body are [pyobj]; subscripting,
      [dict.get] and iteration raise the exceptions Python raises.
    - A pandas [DataFrame] is an ordered list of named, typed columns
      ([int64], [float64], [object], [datetime64]); the constructor, [concat],
      [drop_duplicates], [to_csv] and [read_csv] follow pandas' dtype rules.
    - The file system maps a path to the fields of a CSV file, line by line.
    - Exceptions are values of [exn]; a computation is an [outcome].
    - Console output ([print]) is left out: it is no part of any contract. *)

From stdpp Require Import base option list strings gmap pretty sorting.
From Stdlib Require Import ZArith Ascii.

Local Open Scope string_scope.
Set Warnings "-register-all".

(** ** Exceptions and outcomes *)

(** The exception classes the program can meet. All of them derive from
    [Exception]; [ConnectionError], [HTTPError] and [JSONDecodeError] are
    the ones of [requests.exceptions] and derive from [RequestException]
    ([JSONDecodeError] since requests 2.27, through [InvalidJSONError]). *)
Inductive exn :=
  | ConnectionError
  | HTTPError
  | JSONDecodeError
  | KeyError
  | TypeError
  | IndexError
  | AttributeError
  | ValueError
  | FileNotFoundError
  | PermissionError
  | OSError
  | EmptyDataError
  | ParserError.

#[global] Instance exn_eq_dec : EqDecision exn.
Proof. solve_decision. Defined.

(** [except requests.exceptions.RequestException] *)
Definition is_RequestException (e : exn) : bool :=
  match e with
  | ConnectionError | HTTPError | JSONDecodeError => true
  | _ => false
  end.

(** [except FileNotFoundError] *)
Definition is_FileNotFoundError (e : exn) : bool :=
  match e with
  | FileNotFoundError => true
  | _ => false
  end.

(** [except Exception]: every class of [exn] derives from [Exception]. *)
Definition is_Exception (e : exn) : bool := true.

Inductive outcome (A : Type) :=
  | Return (a : A)
  | Raise (e : exn).
Arguments Return {A} a.
Arguments Raise {A} e.

#[global] Instance outcome_ret : MRet outcome := fun A a => Return a.
#[global] Instance outcome_bind : MBind outcome := fun A B f m =>
  match m with
  | Return a => f a
  | Raise e => Raise e
  end.
#[global] Instance outcome_fmap : FMap outcome := fun A B f m =>
  match m with
  | Return a => Return (f a)
  | Raise e => Raise e
  end.

(** [try: body  except <catches> as e: handler e] *)
Definition try_except {A} (body : outcome A) (catches : exn -> bool)
    (handler : exn -> outcome A) : outcome A :=
  match body with
  | Return a => Return a
  | Raise e => if catches e then handler e else Raise e
  end.

(** [[f x for x in l]], stopping at the first exception. *)
Fixpoint mapO {A B} (f : A -> outcome B) (l : list A) : outcome (list B) :=
  match l with
  | [] => Return []
  | x :: l' => y ← f x; ys ← mapO f l'; Return (y :: ys)
  end.

(** ** Numbers, timestamps and Python objects *)

(** A Python float is identified with the decimal its [repr] prints, the
    shortest one that reads back as the same float: [FDec m e] is
    [m * 10^e]. Every decimal of at most 15 significant digits is the
    [repr] of the float it parses to. *)
Inductive float :=
  | FNaN
  | FDec (m e : Z).

#[global] Instance float_eq_dec : EqDecision float.
Proof. solve_decision. Defined.

Fixpoint strip10 (fuel : nat) (m e : Z) : Z * Z :=
  match fuel with
  | O => (m, e)
  | S fuel' =>
      if (m =? 0)%Z then (0%Z, 0%Z)
      else if (m mod 10 =? 0)%Z then strip10 fuel' (m / 10)%Z (e + 1)%Z
      else (m, e)
  end.

(** The decimal without trailing zeros in its mantissa. *)
Definition fnorm (m e : Z) : Z * Z :=
  strip10 (S (Z.to_nat (Z.log2_up (Z.abs m)))) m e.

(** [float(z)], exact for [|z| <= 2^53]. *)
Definition float_of_Z (z : Z) : float := FDec z 0.

Definition zeros (n : nat) : string :=
  String.string_of_list_ascii (replicate n "0"%char).

Definition str_take (n : nat) (s : string) : string := String.substring 0 n s.
Definition str_drop (n : nat) (s : string) : string :=
  String.substring n (String.length s - n) s.

(** [repr(x)] of a float, as CPython's [float_repr_style = 'short'] prints
    it: fixed notation when the decimal point falls within
    [-4 < decpt <= 16], scientific notation otherwise. *)
Definition float_repr (x : float) : string :=
  match x with
  | FNaN => "nan"
  | FDec m e =>
      let '(m', e') := fnorm m e in
      if (m' =? 0)%Z then "0.0" else
      let sign := if (m' <? 0)%Z then "-" else "" in
      let ds := pretty (Z.abs m') in
      let n := Z.of_nat (String.length ds) in
      let decpt := (n + e')%Z in
      if ((decpt <=? -4) || (16 <? decpt))%Z then
        let x10 := (decpt - 1)%Z in
        let frac := str_drop 1 ds in
        sign +:+ str_take 1 ds +:+
        (if String.eqb frac "" then "" else "." +:+ frac) +:+
        "e" +:+ (if (x10 <? 0)%Z then "-" else "+") +:+
        (if (Z.abs x10 <? 10)%Z then "0" else "") +:+ pretty (Z.abs x10)
      else if (decpt <=? 0)%Z then
        sign +:+ "0." +:+ zeros (Z.to_nat (- decpt)) +:+ ds
      else if (n <=? decpt)%Z then
        sign +:+ ds +:+ zeros (Z.to_nat (decpt - n)) +:+ ".0"
      else
        sign +:+ str_take (Z.to_nat decpt) ds +:+ "." +:+
        str_drop (Z.to_nat decpt) ds
  end.

(** A pandas [Timestamp] at second resolution. *)
Record datetime := mkDatetime {
  year : Z; month : Z; day : Z; hour : Z; minute : Z; second : Z
}.

#[global] Instance datetime_eq_dec : EqDecision datetime.
Proof. solve_decision. Defined.

Definition pad2 (z : Z) : string :=
  if (z <? 10)%Z then "0" +:+ pretty z else pretty z.

Definition pad4 (z : Z) : string :=
  if (z <? 10)%Z then "000" +:+ pretty z
  else if (z <? 100)%Z then "00" +:+ pretty z
  else if (z <? 1000)%Z then "0" +:+ pretty z
  else pretty z.

Definition date_str (t : datetime) : string :=
  pad4 (year t) +:+ "-" +:+ pad2 (month t) +:+ "-" +:+ pad2 (day t).

(** [str(Timestamp)]: always with the time of day. *)
Definition datetime_str (t : datetime) : string :=
  date_str t +:+ " " +:+ pad2 (hour t) +:+ ":" +:+ pad2 (minute t) +:+ ":" +:+
  pad2 (second t).

Definition is_midnight (t : datetime) : bool :=
  ((hour t =? 0) && (minute t =? 0) && (second t =? 0))%Z.

Definition digit_val (c : ascii) : option Z :=
  let n := nat_of_ascii c in
  if (48 <=? n)%nat && (n <=? 57)%nat then Some (Z.of_nat (n - 48)) else None.

Fixpoint digits_val (acc : Z) (cs : list ascii) : option Z :=
  match cs with
  | [] => Some acc
  | c :: cs' =>
      match digit_val c with
      | Some d => digits_val (10 * acc + d)%Z cs'
      | None => None
      end
  end.

(** A non-empty run of decimal digits. *)
Definition parse_nat (cs : list ascii) : option Z :=
  match cs with
  | [] => None
  | _ => digits_val 0 cs
  end.

Definition is_leap (y : Z) : bool :=
  (((y mod 4 =? 0) && negb (y mod 100 =? 0)) || (y mod 400 =? 0))%Z.

Definition days_in_month (y m : Z) : Z :=
  if (m =? 2)%Z then (if is_leap y then 29 else 28)%Z
  else if ((m =? 4) || (m =? 6) || (m =? 9) || (m =? 11))%Z then 30%Z
  else 31%Z.

(** The timestamp written [YYYY-MM-DD HH:MM:SS], the form of the API's
    [dt_txt], within the years a nanosecond [Timestamp] can hold. *)
Definition parse_iso (s : string) : option datetime :=
  match String.list_ascii_of_string s with
  | [y1; y2; y3; y4; s1; m1; m2; s2; d1; d2; s3; h1; h2; s4; i1; i2; s5; c1; c2] =>
      if Ascii.eqb s1 "-" && Ascii.eqb s2 "-" && Ascii.eqb s3 " " &&
         Ascii.eqb s4 ":" && Ascii.eqb s5 ":" then
        y ← parse_nat [y1; y2; y3; y4];
        m ← parse_nat [m1; m2];
        d ← parse_nat [d1; d2];
        h ← parse_nat [h1; h2];
        i ← parse_nat [i1; i2];
        c ← parse_nat [c1; c2];
        if ((1678 <=? y) && (y <=? 2261) && (1 <=? m) && (m <=? 12) &&
            (1 <=? d) && (d <=? days_in_month y m) &&
            (h <? 24) && (i <? 60) && (c <? 60))%Z
        then Some (mkDatetime y m d h i c)
        else None
      else None
  | _ => None
  end.

(** The Python object [response.json()] returns. A [dict] is kept as its
    items in insertion order (keys distinct); lookup takes the first. *)
Inductive pyobj :=
  | PNone
  | PBool (b : bool)
  | PInt (z : Z)
  | PFloat (f : float)
  | PStr (s : string)
  | PList (l : list pyobj)
  | PDict (d : list (string * pyobj)).

Fixpoint dict_lookup (k : string) (d : list (string * pyobj)) : option pyobj :=
  match d with
  | [] => None
  | (k', v) :: d' => if String.eqb k k' then Some v else dict_lookup k d'
  end.

(** [o[k]] for a string key [k] *)
Definition getitem (o : pyobj) (k : string) : outcome pyobj :=
  match o with
  | PDict d =>
      match dict_lookup k d with
      | Some v => Return v
      | None => Raise KeyError
      end
  | _ => Raise TypeError
  end.

(** [o[0]] *)
Definition getitem0 (o : pyobj) : outcome pyobj :=
  match o with
  | PList [] => Raise IndexError
  | PList (x :: _) => Return x
  | PStr EmptyString => Raise IndexError
  | PStr (String c _) => Return (PStr (String c EmptyString))
  | PDict _ => Raise KeyError
  | _ => Raise TypeError
  end.

(** [o.get(k, dflt)] *)
Definition get (o : pyobj) (k : string) (dflt : pyobj) : outcome pyobj :=
  match o with
  | PDict d => Return (default dflt (dict_lookup k d))
  | _ => Raise AttributeError
  end.

(** [for item in o]: the elements of a list, the keys of a dict, the
    characters of a string. *)
Fixpoint chars (s : string) : list pyobj :=
  match s with
  | EmptyString => []
  | String c s' => PStr (String c EmptyString) :: chars s'
  end.

Definition iter (o : pyobj) : outcome (list pyobj) :=
  match o with
  | PList l => Return l
  | PDict d => Return (PStr <$> d.*1)
  | PStr s => Return (chars s)
  | _ => Raise TypeError
  end.

(** ** pandas: typed columns and frames *)

(** What an [object] column holds: a Python object, a [Timestamp], or
    [NaT]. The float [nan] is [Py (PFloat FNaN)]. *)
Inductive cell :=
  | Py (o : pyobj)
  | Ts (t : datetime)
  | NaT.

Inductive column :=
  | Int64 (l : list Z)
  | Float64 (l : list float)
  | Object (l : list cell)
  | Datetime64 (l : list (option datetime)).

Inductive dtype := DInt64 | DFloat64 | DObject | DDatetime64.

#[global] Instance dtype_eq_dec : EqDecision dtype.
Proof. solve_decision. Defined.

Definition dtype_of (c : column) : dtype :=
  match c with
  | Int64 _ => DInt64
  | Float64 _ => DFloat64
  | Object _ => DObject
  | Datetime64 _ => DDatetime64
  end.

Definition ts_cell (o : option datetime) : cell :=
  match o with
  | Some t => Ts t
  | None => NaT
  end.

(** The values of a column as Python sees them ([Series.astype(object)]). *)
Definition cells (c : column) : list cell :=
  match c with
  | Int64 l => (fun z => Py (PInt z)) <$> l
  | Float64 l => (fun f => Py (PFloat f)) <$> l
  | Object l => l
  | Datetime64 l => ts_cell <$> l
  end.

Definition col_len (c : column) : nat := length (cells c).

(** A frame: its columns, in order. All columns of a frame have the same
    length ([wf_frame]); the index is never written and is left out. *)
Definition DataFrame := list (string * column).

Definition columns (df : DataFrame) : list string := df.*1.

Fixpoint column_of (name : string) (df : DataFrame) : option column :=
  match df with
  | [] => None
  | (n, c) :: df' => if String.eqb name n then Some c else column_of name df'
  end.

Definition nrows (df : DataFrame) : nat :=
  match df with
  | [] => 0
  | (_, c) :: _ => col_len c
  end.

Definition wf_frame (df : DataFrame) : Prop :=
  Forall (fun nc => col_len nc.2 = nrows df) df.

(** The cell of column [name] in row [i]. *)
Definition cell_at (df : DataFrame) (name : string) (i : nat) : option cell :=
  c ← column_of name df; cells c !! i.

(** [df[name] = c]: replaces the column in place, or appends a new one. *)
Fixpoint setitem (name : string) (c : column) (df : DataFrame) : DataFrame :=
  match df with
  | [] => [(name, c)]
  | (n, c') :: df' =>
      if String.eqb name n then (n, c) :: df' else (n, c') :: setitem name c df'
  end.

(** *** The constructor [pd.DataFrame({name: list, ...})] *)

Definition int64_min : Z := (- 2 ^ 63)%Z.
Definition int64_max : Z := (2 ^ 63 - 1)%Z.

Inductive kind := KInt | KFloat | KNone | KOther.

Definition kind_of (o : pyobj) : kind :=
  match o with
  | PInt z => if ((int64_min <=? z) && (z <=? int64_max))%Z then KInt else KOther
  | PFloat _ => KFloat
  | PNone => KNone
  | _ => KOther
  end.

Definition is_other (k : kind) : bool := match k with KOther => true | _ => false end.
Definition is_none (k : kind) : bool := match k with KNone => true | _ => false end.
Definition is_int (k : kind) : bool := match k with KInt => true | _ => false end.

Definition as_int (o : pyobj) : Z :=
  match o with PInt z => z | _ => 0%Z end.

Definition as_float (o : pyobj) : float :=
  match o with
  | PInt z => float_of_Z z
  | PFloat f => f
  | _ => FNaN
  end.

(** The dtype pandas infers for a list of Python objects: [float64] for
    the empty list; an [object] column as soon as one element is no number
    and not [None], or when all are [None]; [int64] for integers only;
    [float64] ([None] becoming [nan]) for numbers mixed with floats or
    [None]. An integer outside [int64] counts as no number here, also
    next to floats, where pandas makes the column [float64]. *)
Definition sanitize (l : list pyobj) : column :=
  let ks := kind_of <$> l in
  match l with
  | [] => Float64 []
  | _ =>
      if existsb is_other ks then Object (Py <$> l)
      else if forallb is_none ks then Object (Py <$> l)
      else if forallb is_int ks then Int64 (as_int <$> l)
      else Float64 (as_float <$> l)
  end.

Definition same_lengths (d : list (string * list pyobj)) : bool :=
  match d with
  | [] => true
  | (_, l) :: d' => forallb (fun nl => Nat.eqb (length nl.2) (length l)) d'
  end.

Definition DataFrame_of_dict (d : list (string * list pyobj)) : outcome DataFrame :=
  if same_lengths d then Return (prod_map id sanitize <$> d)
  else Raise ValueError.

(** *** [pd.to_datetime] *)

Definition parse_cell (c : cell) : outcome (option datetime) :=
  match c with
  | Py (PStr s) =>
      match parse_iso s with
      | Some t => Return (Some t)
      | None => Raise ValueError
      end
  | _ => Raise ValueError
  end.

(** [pd.to_datetime(series)] on a column of texts in the API's form
    [YYYY-MM-DD HH:MM:SS], and on an empty column. pandas reads further
    inputs too (other layouts, epoch numbers, [None]); on those this model
    raises [ValueError], and nothing below rests on it raising. *)
Definition to_datetime (c : column) : outcome column :=
  match c with
  | Datetime64 l => Return (Datetime64 l)
  | Object l => Datetime64 <$> mapO parse_cell l
  | Float64 [] => Return (Datetime64 [])
  | _ => Raise ValueError
  end.

(** ** requests *)

(** What a GET meets: no answer (a connection error or a timeout, which
    [requests.get] raises as a [RequestException]), a response with its
    status code and a body that is JSON, given as [response.json()]
    decodes it, or a response whose body is no JSON. *)
Inductive reply :=
  | Unreachable
  | Response (status_code : Z) (body : pyobj)
  | Undecodable (status_code : Z).

(** A response object: its status code and, when the body is JSON, what
    the body decodes to. *)
Definition response := (Z * option pyobj)%type.

(** The network: the reply to a GET with [id] and [appid] (and
    [units=metric]) at the forecast endpoint. *)
Definition network := string -> string -> reply.

Definition base_url : string := "http://api.openweathermap.org/data/2.5/forecast".

(** [requests.get(base_url, params=params)] *)
Definition requests_get (net : network) (url : string) (id appid : string)
    : outcome response :=
  match net id appid with
  | Unreachable => Raise ConnectionError
  | Response status body => Return (status, Some body)
  | Undecodable status => Return (status, None)
  end.

(** A client or server error status. *)
Definition http_error (status : Z) : bool := ((400 <=? status) && (status <? 600))%Z.

(** [response.raise_for_status()] *)
Definition raise_for_status (r : response) : outcome unit :=
  if http_error r.1 then Raise HTTPError else Return tt.

(** [response.json()] *)
Definition json (r : response) : outcome pyobj :=
  match r.2 with
  | Some body => Return body
  | None => Raise JSONDecodeError
  end.

(** ** get_weather_data *)

Record lists := mkLists {
  timestamps : list pyobj;
  temperatures : list pyobj;
  humidity : list pyobj;
  wind_speed : list pyobj;
  pressure : list pyobj;
  visibility : list pyobj;
  rainfall : list pyobj;
  cloud_cover : list pyobj;
  icons : list pyobj;
  descriptions : list pyobj
}.

Definition no_lists : lists := mkLists [] [] [] [] [] [] [] [] [] [].

(** The ten values the loop takes from one entry. *)
Record entry_values := mkValues {
  v_dt_txt : pyobj;
  v_temp : pyobj;
  v_humidity : pyobj;
  v_speed : pyobj;
  v_pressure : pyobj;
  v_visibility : pyobj;
  v_rain : pyobj;
  v_clouds : pyobj;
  v_icon : pyobj;
  v_description : pyobj
}.

(** The look-ups of the loop body, in the order of the source; the first
    one that raises leaves the loop. *)
Definition lookups (item : pyobj) : outcome entry_values :=
  dt ← getitem item "dt_txt";
  temp ← (m ← getitem item "main"; getitem m "temp");
  hum ← (m ← getitem item "main"; getitem m "humidity");
  wind ← (w ← getitem item "wind"; getitem w "speed");
  pres ← (m ← getitem item "main"; getitem m "pressure");
  vis ← get item "visibility" PNone;
  rain ← (r ← get item "rain" (PDict []); get r "3h" (PInt 0));
  cloud ← (c ← getitem item "clouds"; getitem c "all");
  icon ← (w ← getitem item "weather"; w0 ← getitem0 w; getitem w0 "icon");
  desc ← (w ← getitem item "weather"; w0 ← getitem0 w; getitem w0 "description");
  Return (mkValues dt temp hum wind pres vis rain cloud icon desc).

(** The ten [append]s. *)
Definition append_values (v : entry_values) (a : lists) : lists :=
  mkLists
    (timestamps a ++ [v_dt_txt v]) (temperatures a ++ [v_temp v])
    (humidity a ++ [v_humidity v]) (wind_speed a ++ [v_speed v])
    (pressure a ++ [v_pressure v]) (visibility a ++ [v_visibility v])
    (rainfall a ++ [v_rain v]) (cloud_cover a ++ [v_clouds v])
    (icons a ++ [v_icon v]) (descriptions a ++ [v_description v]).

(** The body of [for item in weather_data['list']]. In the source each
    value is appended as soon as it is looked up; the lists are local to
    the call, so an entry whose look-ups raise leaves nothing behind. *)
Definition loop_body (item : pyobj) (a : lists) : outcome lists :=
  v ← lookups item; Return (append_values v a).

Fixpoint for_items (items : list pyobj) (a : lists) : outcome lists :=
  match items with
  | [] => Return a
  | item :: rest => a' ← loop_body item a; for_items rest a'
  end.

Definition frame_of_lists (a : lists) : outcome DataFrame :=
  DataFrame_of_dict
    [("timestamp", timestamps a); ("temperature", temperatures a);
     ("humidity", humidity a); ("wind_speed", wind_speed a);
     ("pressure", pressure a); ("visibility", visibility a);
     ("rainfall", rainfall a); ("cloud_cover", cloud_cover a);
     ("icon", icons a); ("description", descriptions a)].

(** [df[name]] *)
Definition getcol (df : DataFrame) (name : string) : outcome column :=
  match column_of name df with
  | Some c => Return c
  | None => Raise KeyError
  end.

Definition get_weather_data (net : network) (api_key city_id : string)
    : outcome (option DataFrame) :=
  try_except
    (response ← requests_get net base_url city_id api_key;
     _ ← raise_for_status response;
     weather_data ← json response;
     entries ← getitem weather_data "list";
     items ← iter entries;
     a ← for_items items no_lists;
     df ← frame_of_lists a;
     ts ← (c ← getcol df "timestamp"; to_datetime c);
     Return (Some (setitem "timestamp" ts df)))
    is_RequestException
    (fun e => Return None).

(** ** pandas: concat *)

(** The common dtype of two columns put one after the other. *)
Definition join_dtype (a b : dtype) : dtype :=
  match a, b with
  | DInt64, DInt64 => DInt64
  | DInt64, DFloat64 | DFloat64, DInt64 | DFloat64, DFloat64 => DFloat64
  | DDatetime64, DDatetime64 => DDatetime64
  | _, _ => DObject
  end.

(** What a frame contributes to a column of the result: its own column of
    that name, or as many missing values as it has rows. *)
Definition piece := (option column * nat)%type.

Definition pieces (name : string) (frames : list DataFrame) : list piece :=
  (fun f => (column_of name f, nrows f)) <$> frames.

Definition present_dtype (ps : list piece) : option dtype :=
  foldr (fun (p : piece) acc =>
           match p.1, acc with
           | Some c, Some d => Some (join_dtype (dtype_of c) d)
           | Some c, None => Some (dtype_of c)
           | None, _ => acc
           end) None ps.

Definition has_missing (ps : list piece) : bool :=
  existsb (fun p : piece => match p.1 with None => true | Some _ => false end) ps.

(** Missing values need a dtype that holds [nan]: [int64] becomes
    [float64]. *)
Definition common_dtype (ps : list piece) : dtype :=
  match present_dtype ps with
  | Some DInt64 => if has_missing ps then DFloat64 else DInt64
  | Some d => d
  | None => DObject
  end.

Definition ints_of (p : piece) : list Z :=
  match p with
  | (Some (Int64 l), _) => l
  | (Some c, _) => replicate (col_len c) 0%Z
  | (None, n) => replicate n 0%Z
  end.

Definition floats_of (p : piece) : list float :=
  match p with
  | (Some (Int64 l), _) => float_of_Z <$> l
  | (Some (Float64 l), _) => l
  | (Some c, _) => replicate (col_len c) FNaN
  | (None, n) => replicate n FNaN
  end.

Definition times_of (p : piece) : list (option datetime) :=
  match p with
  | (Some (Datetime64 l), _) => l
  | (Some c, _) => replicate (col_len c) None
  | (None, n) => replicate n None
  end.

Definition cells_of (p : piece) : list cell :=
  match p with
  | (Some c, _) => cells c
  | (None, n) => replicate n (Py (PFloat FNaN))
  end.

Definition combine (ps : list piece) : column :=
  match common_dtype ps with
  | DInt64 => Int64 (ps ≫= ints_of)
  | DFloat64 => Float64 (ps ≫= floats_of)
  | DDatetime64 => Datetime64 (ps ≫= times_of)
  | DObject => Object (ps ≫= cells_of)
  end.

(** [keep='first'] over hashable keys: a key is a duplicate when it was
    seen before. *)
Fixpoint duplicated `{EqDecision K} (seen : list K) (ks : list K) : list bool :=
  match ks with
  | [] => []
  | k :: ks' =>
      if bool_decide (k ∈ seen) then true :: duplicated seen ks'
      else false :: duplicated (k :: seen) ks'
  end.

(** [l[~mask]] *)
Fixpoint drop_where {A} (mask : list bool) (l : list A) : list A :=
  match mask, l with
  | m :: mask', x :: l' =>
      if m then drop_where mask' l' else x :: drop_where mask' l'
  | _, _ => []
  end.

(** The names of [l] in order of first appearance. *)
Definition unique (l : list string) : list string :=
  drop_where (duplicated [] l) l.

(** [pd.concat(frames)] along the rows: the union of the columns in order
    of first appearance, each the pieces of the frames in turn, in the
    common dtype of the pieces (as pandas 3 finds it, from every piece;
    earlier versions leave empty and all-missing pieces out of it, which
    changes neither a row nor a key). The index ([ignore_index]) is not
    kept in a frame. *)
Definition concat (frames : list DataFrame) : DataFrame :=
  (fun name => (name, combine (pieces name frames))) <$> unique (frames ≫= columns).

(** ** pandas: drop_duplicates *)

(** What two key values are compared by: missing values are all alike,
    numbers compare by value ([True == 1 == 1.0]), a text equals only the
    same text, a [Timestamp] only the same [Timestamp]. *)
Inductive hkey :=
  | KMissing
  | KNum (m e : Z)
  | KStr (s : string)
  | KTime (t : datetime).

#[global] Instance hkey_eq_dec : EqDecision hkey.
Proof. solve_decision. Defined.

Definition num_key (m e : Z) : hkey := let '(m', e') := fnorm m e in KNum m' e'.

(** [hash] of a cell; a list or a dict is unhashable. *)
Definition cell_key (c : cell) : outcome hkey :=
  match c with
  | Py PNone => Return KMissing
  | Py (PBool b) => Return (KNum (if b then 1 else 0) 0)
  | Py (PInt z) => Return (num_key z 0)
  | Py (PFloat FNaN) => Return KMissing
  | Py (PFloat (FDec m e)) => Return (num_key m e)
  | Py (PStr s) => Return (KStr s)
  | Py (PList _) | Py (PDict _) => Raise TypeError
  | Ts t => Return (KTime t)
  | NaT => Return KMissing
  end.

Definition column_keys (c : column) : outcome (list hkey) := mapO cell_key (cells c).

(** The key of row [i]: its value in each column of the subset. *)
Definition row_key (kcols : list (list hkey)) (i : nat) : list (option hkey) :=
  (fun kc => kc !! i) <$> kcols.

Definition drop_column (mask : list bool) (c : column) : column :=
  match c with
  | Int64 l => Int64 (drop_where mask l)
  | Float64 l => Float64 (drop_where mask l)
  | Object l => Object (drop_where mask l)
  | Datetime64 l => Datetime64 (drop_where mask l)
  end.

(** The keys of the rows of [df] over [subset]: a name of the subset that
    is no column is a [KeyError]; then each key column is hashed. *)
Definition frame_keys (subset : list string) (df : DataFrame)
    : outcome (list (list (option hkey))) :=
  cols ← mapO (getcol df) subset;
  kcols ← mapO column_keys cols;
  Return (row_key kcols <$> seq 0 (nrows df)).

(** [df.duplicated(subset)] *)
Definition frame_duplicated (subset : list string) (df : DataFrame)
    : outcome (list bool) :=
  keys ← frame_keys subset df;
  Return (duplicated [] keys).

(** [df.drop_duplicates(subset=subset)]; an empty frame is returned as it
    is, before the subset is looked at. *)
Definition drop_duplicates (subset : list string) (df : DataFrame)
    : outcome DataFrame :=
  if Nat.eqb (nrows df) 0 then Return df
  else
    mask ← frame_duplicated subset df;
    Return (prod_map id (drop_column mask) <$> df).

(** ** pandas: to_csv and read_csv *)

(** A CSV file, as its lines of fields. The quoting that turns fields into
    the text of a line and back ([csv_line]) loses nothing, so files are
    kept as fields. *)
Definition csv := list (list string).

(** [repr] of an object inside a list or a dict cell. Texts are put between
    single quotes; the escapes of [repr] are not modelled. *)
Fixpoint py_repr (o : pyobj) : string :=
  match o with
  | PNone => "None"
  | PBool b => if b then "True" else "False"
  | PInt z => pretty z
  | PFloat f => float_repr f
  | PStr s => "'" +:+ s +:+ "'"
  | PList l => "[" +:+ String.concat ", " (map py_repr l) +:+ "]"
  | PDict d =>
      "{" +:+
      String.concat ", "
        (map (fun kv => "'" +:+ fst kv +:+ "': " +:+ py_repr (snd kv)) d) +:+
      "}"
  end.

(** The field written for a cell of an [object] column: [str] of the
    value, nothing for a missing one. *)
Definition cell_field (c : cell) : string :=
  match c with
  | Py PNone => ""
  | Py (PFloat FNaN) => ""
  | Py (PStr s) => s
  | Py o => py_repr o
  | Ts t => datetime_str t
  | NaT => ""
  end.

Definition float_field (f : float) : string :=
  match f with
  | FNaN => ""
  | _ => float_repr f
  end.

Definition dates_only (l : list (option datetime)) : bool :=
  forallb (fun o => match o with Some t => is_midnight t | None => true end) l.

(** A [datetime64] column is written as dates alone when no value of it has
    a time of day. *)
Definition time_field (short : bool) (o : option datetime) : string :=
  match o with
  | None => ""
  | Some t => if short then date_str t else datetime_str t
  end.

Definition column_fields (c : column) : list string :=
  match c with
  | Int64 l => pretty <$> l
  | Float64 l => float_field <$> l
  | Object l => cell_field <$> l
  | Datetime64 l => time_field (dates_only l) <$> l
  end.

(** The fields of row [i], column by column. *)
Definition row_fields (df : DataFrame) (i : nat) : list string :=
  (fun nc : string * column => default "" (column_fields nc.2 !! i)) <$> df.

(** The lines [df.to_csv(index=False)] writes: the header, then one line
    per row. *)
Definition to_csv_lines (df : DataFrame) : csv :=
  columns df :: (row_fields df <$> seq 0 (nrows df)).

Definition dquote : ascii := ascii_of_nat 34.

Definition needs_quotes (s : string) : bool :=
  existsb (fun c => Ascii.eqb c "," || Ascii.eqb c dquote ||
                    Ascii.eqb c (ascii_of_nat 10) || Ascii.eqb c (ascii_of_nat 13))
          (String.list_ascii_of_string s).

Fixpoint double_quotes (s : string) : string :=
  match s with
  | EmptyString => EmptyString
  | String c s' =>
      if Ascii.eqb c dquote then String c (String c (double_quotes s'))
      else String c (double_quotes s')
  end.

(** [csv.QUOTE_MINIMAL] *)
Definition quote_field (s : string) : string :=
  if needs_quotes s
  then String dquote (double_quotes s) +:+ String dquote EmptyString
  else s.

(** The text of one line of the file, without its line terminator. A line
    of one empty field is written as two double quotes. *)
Definition csv_line (fields : list string) : string :=
  match fields with
  | [EmptyString] => String dquote (String dquote EmptyString)
  | _ => String.concat "," (quote_field <$> fields)
  end.

Definition na_values : list string :=
  [""; "#N/A"; "#N/A N/A"; "#NA"; "-1.#IND"; "-1.#QNAN"; "-NaN"; "-nan";
   "1.#IND"; "1.#QNAN"; "<NA>"; "N/A"; "NA"; "NULL"; "NaN"; "None"; "n/a";
   "nan"; "null"].

Definition is_na (s : string) : bool := bool_decide (s ∈ na_values).

Definition split_sign (cs : list ascii) : bool * list ascii :=
  match cs with
  | c :: cs' =>
      if Ascii.eqb c "-" then (true, cs')
      else if Ascii.eqb c "+" then (false, cs')
      else (false, cs)
  | [] => (false, [])
  end.

Definition signed (neg : bool) (z : Z) : Z := if neg then (- z)%Z else z.

(** A field that reads as an [int64]. *)
Definition parse_int (s : string) : option Z :=
  let '(neg, ds) := split_sign (String.list_ascii_of_string s) in
  z ← parse_nat ds;
  let z' := signed neg z in
  if ((int64_min <=? z') && (z' <=? int64_max))%Z then Some z' else None.

Definition is_digit (c : ascii) : bool :=
  match digit_val c with Some _ => true | None => false end.

Fixpoint span_digits (cs : list ascii) : list ascii * list ascii :=
  match cs with
  | c :: cs' =>
      if is_digit c then let '(ds, rest) := span_digits cs' in (c :: ds, rest)
      else ([], cs)
  | [] => ([], [])
  end.

Definition parse_exponent (cs : list ascii) : option Z :=
  match cs with
  | [] => Some 0%Z
  | c :: cs' =>
      if Ascii.eqb c "e" || Ascii.eqb c "E" then
        let '(neg, ds) := split_sign cs' in
        signed neg <$> parse_nat ds
      else None
  end.

(** A field that reads as a float: digits with an optional fraction and an
    optional exponent. The value keeps every digit of the field, where
    pandas rounds to the nearest double. *)
Definition parse_float (s : string) : option float :=
  let '(neg, cs) := split_sign (String.list_ascii_of_string s) in
  let '(ip, rest) := span_digits cs in
  let '(fp, rest') :=
    match rest with
    | c :: r => if Ascii.eqb c "." then span_digits r else ([], rest)
    | [] => ([], [])
    end in
  m ← parse_nat (ip ++ fp);
  x ← parse_exponent rest';
  Some (FDec (signed neg m) (x - Z.of_nat (length fp))).

Definition parse_bool (s : string) : option bool :=
  if bool_decide (s ∈ ["True"; "TRUE"; "true"]) then Some true
  else if bool_decide (s ∈ ["False"; "FALSE"; "false"]) then Some false
  else None.

Definition all_parse {A} (f : string -> option A) (l : list string) : bool :=
  forallb (fun s => match f s with Some _ => true | None => false end) l.

(** The dtype [read_csv] infers for the fields of a column. Texts stay
    texts: no column is read as dates unless [parse_dates] asks for it, and
    the program does not. *)
Definition infer_column (fields : list string) : column :=
  let given := filter (fun s => is_na s = false) fields in
  match fields, given with
  | [], _ => Object []
  | _, [] => Float64 (replicate (length fields) FNaN)
  | _, _ =>
      if all_parse parse_int given then
        if existsb is_na fields
        then Float64 ((fun s => from_option float_of_Z FNaN (parse_int s)) <$> fields)
        else Int64 ((fun s => default 0%Z (parse_int s)) <$> fields)
      else if all_parse parse_float given then
        Float64 ((fun s => if is_na s then FNaN else default FNaN (parse_float s)) <$> fields)
      else if all_parse parse_bool given then
        Object ((fun s => from_option (fun b => Py (PBool b)) (Py (PFloat FNaN))
                           (parse_bool s)) <$> fields)
      else
        Object ((fun s => if is_na s then Py (PFloat FNaN) else Py (PStr s)) <$> fields)
  end.

Definition is_space (c : ascii) : bool :=
  Ascii.eqb c " " || Ascii.eqb c (ascii_of_nat 9).

(** The lines [read_csv] skips ([skip_blank_lines]): a line of no field,
    and a line whose text is spaces and tabs only, which is a line of one
    such field that is not empty (the line of one empty field is two
    double quotes). *)
Definition is_blank (line : list string) : bool :=
  match line with
  | [] => true
  | [s] =>
      negb (String.eqb s EmptyString) &&
      forallb is_space (String.list_ascii_of_string s)
  | _ => false
  end.

(** The number of fields of a row of the table: that of the header, or
    that of the first row when it has more. *)
Definition table_width (header : list string) (rows : csv) : nat :=
  match rows with
  | r :: _ => Nat.max (length header) (length r)
  | [] => length header
  end.

(** [pd.read_csv] of the lines of a file: nothing to parse is an
    [EmptyDataError]. When the first row has more fields than the header,
    its surplus leading fields and those of the rows after it are the
    index, which no frame here keeps. A row with more fields than the
    table is wide is a [ParserError], a shorter row is filled with
    missing values. *)
Definition read_csv_lines (lines : csv) : outcome DataFrame :=
  match filter (fun l => is_blank l = false) lines with
  | [] => Raise EmptyDataError
  | header :: rows =>
      let width := table_width header rows in
      let lead := width - length header in
      if existsb (fun r => Nat.ltb width (length r)) rows then Raise ParserError
      else Return (imap (fun j name =>
                           (name, infer_column
                                    ((fun r => default "" (r !! (lead + j))) <$> rows)))
                        header)
  end.

(** ** The file system *)

(** The files by path, the paths written so far, and the failures the
    system may answer with: to an attempt to open a file for reading
    ([read_fault]) and for writing ([write_fault]; the file is then left as
    it was). A failure after the file was opened for writing, which leaves
    it cut short, is none of them. *)
Record world := mkWorld {
  files : gmap string csv;
  writes : list string;
  read_fault : option exn;
  write_fault : option exn
}.

(** The world after [lines] were written to [filename]. *)
Definition write_file (filename : string) (lines : csv) (w : world) : world :=
  mkWorld (<[filename := lines]> (files w)) (writes w ++ [filename])
          (read_fault w) (write_fault w).

(** [pd.read_csv(filename)] *)
Definition read_csv (filename : string) (w : world) : outcome DataFrame :=
  match read_fault w with
  | Some e => Raise e
  | None =>
      match files w !! filename with
      | None => Raise FileNotFoundError
      | Some lines => read_csv_lines lines
      end
  end.

(** [df.to_csv(filename, index=False)]: the file is rewritten in full, or,
    when it cannot be opened for writing, left as it was. *)
Definition to_csv (df : DataFrame) (filename : string) (w : world)
    : world * outcome unit :=
  match write_fault w with
  | Some e => (w, Raise e)
  | None => (write_file filename (to_csv_lines df) w, Return tt)
  end.

(** ** save_weather_data *)

(** The inner [try]: the frame to write. *)
Definition merged (df : DataFrame) (filename : string) (w : world)
    : outcome DataFrame :=
  try_except
    (existing_df ← read_csv filename w;
     drop_duplicates ["timestamp"; "city"] (concat [existing_df; df]))
    is_FileNotFoundError
    (fun _ => Return df).

(** The body of the outer [try]. *)
Definition save_body (df : DataFrame) (filename : string) (w : world)
    : world * outcome unit :=
  match merged df filename w with
  | Return df' => to_csv df' filename w
  | Raise e => (w, Raise e)
  end.

Definition save_weather_data (df : DataFrame) (filename : string) (w : world)
    : world * outcome unit :=
  let '(w', r) := save_body df filename w in
  (w', try_except r is_Exception (fun _ => Return tt)).

(** ** The driver *)

Definition API_KEY : string := "c9c53e4ef615028271edf6d041744a9b".

Definition CITIES : list (string * string) :=
  [("Dehradun", "1273313"); ("Delhi", "1273294"); ("Mumbai", "1275339");
   ("Kolkata", "1275004"); ("Chennai", "1264527"); ("Bengaluru", "1277333");
   ("Hyderabad", "1269843"); ("Ahmedabad", "1279233"); ("Pune", "1259229");
   ("Jaipur", "1269515"); ("Lucknow", "1264733"); ("Patna", "1260086");
   ("Bhopal", "1275841"); ("Thiruvananthapuram", "1269743");
   ("Guwahati", "1271476"); ("Ranchi", "1258526"); ("Shillong", "1256523");
   ("Aizawl", "1277765"); ("Imphal", "1269750"); ("Itanagar", "1278341");
   ("Agartala", "1278314"); ("Panaji", "1271157"); ("Raipur", "1273066");
   ("Chandigarh", "1274746"); ("Srinagar", "1255634"); ("Shimla", "1256237");
   ("Gangtok", "1254029")].

Definition output_path : string := "india_weather_data.csv".

(** [weather_df['city'] = city] *)
Definition tag_city (city : string) (weather_df : DataFrame) : DataFrame :=
  setitem "city" (Object (replicate (nrows weather_df) (Py (PStr city)))) weather_df.

(** [for city, city_id in cities.items()], with the list the frames are
    appended to. An exception of a fetch leaves the loop and the program. *)
Fixpoint fetch_all (net : network) (cities : list (string * string))
    (all_states_weather_data : list DataFrame) : outcome (list DataFrame) :=
  match cities with
  | [] => Return all_states_weather_data
  | (city, city_id) :: rest =>
      weather_df ← get_weather_data net API_KEY city_id;
      match weather_df with
      | Some df => fetch_all net rest (all_states_weather_data ++ [tag_city city df])
      | None => fetch_all net rest all_states_weather_data
      end
  end.

Inductive exit :=
  | ExitNormal
  | Uncaught (e : exn).

(** The [__main__] block over a registry [cities]. *)
Definition run (net : network) (cities : list (string * string)) (w : world)
    : world * exit :=
  match fetch_all net cities [] with
  | Raise e => (w, Uncaught e)
  | Return [] => (w, ExitNormal)
  | Return frames =>
      let combined_df := concat frames in
      match save_weather_data combined_df output_path w with
      | (w', Return _) => (w', ExitNormal)
      | (w', Raise e) => (w', Uncaught e)
      end
  end.

Definition main (net : network) (w : world) : world * exit := run net CITIES w.

(** ** Notions of the statements *)

Definition has_key (k : string) (d : list (string * pyobj)) : bool :=
  match dict_lookup k d with Some _ => true | None => false end.

(** A forecast entry as the API documents it: a dict with a [dt_txt] in
    the form [YYYY-MM-DD HH:MM:SS], the dicts [main] (with [temp],
    [humidity], [pressure]), [wind] (with [speed]) and [clouds] (with
    [all]), a non-empty list [weather] whose first element is a dict with
    [icon] and [description], and, when it has a [rain], a dict there. *)
Definition valid_entry (item : pyobj) : bool :=
  match item with
  | PDict d =>
      match dict_lookup "dt_txt" d with
      | Some (PStr s) => match parse_iso s with Some _ => true | None => false end
      | _ => false
      end &&
      match dict_lookup "main" d with
      | Some (PDict m) => has_key "temp" m && has_key "humidity" m && has_key "pressure" m
      | _ => false
      end &&
      match dict_lookup "wind" d with
      | Some (PDict x) => has_key "speed" x
      | _ => false
      end &&
      match dict_lookup "clouds" d with
      | Some (PDict x) => has_key "all" x
      | _ => false
      end &&
      match dict_lookup "weather" d with
      | Some (PList (PDict x :: _)) => has_key "icon" x && has_key "description" x
      | _ => false
      end &&
      match dict_lookup "rain" d with
      | None | Some (PDict _) => true
      | Some _ => false
      end
  | _ => false
  end.

(** A body with a list of forecast entries under [list]. *)
Definition valid_body (body : pyobj) : bool :=
  match body with
  | PDict d =>
      match dict_lookup "list" d with
      | Some (PList items) => forallb valid_entry items
      | _ => false
      end
  | _ => false
  end.

(** A reply the fetcher copes with: no reply, an error status, or a
    well-formed body. *)
Definition fetch_ok (r : reply) : bool :=
  match r with
  | Unreachable => true
  | Response status body => http_error status || valid_body body
  | Undecodable status => http_error status
  end.

(** The entry has no [rain], or a [rain] without [3h]. *)
Definition lacks_rain (item : pyobj) : bool :=
  match item with
  | PDict d =>
      match dict_lookup "rain" d with
      | None => true
      | Some (PDict r) => negb (has_key "3h" r)
      | Some _ => false
      end
  | _ => false
  end.

Definition lacks_visibility (item : pyobj) : bool :=
  match item with
  | PDict d => negb (has_key "visibility" d)
  | _ => false
  end.

(** The cell a column built from a list holds for the value [v]: [v]
    itself, or in a [float64] column the float of an integer and [nan] for
    [None]. *)
Definition stored (v : pyobj) (c : cell) : Prop :=
  c = Py v \/
  (exists z, v = PInt z /\ c = Py (PFloat (float_of_Z z))) \/
  (v = PNone /\ c = Py (PFloat FNaN)).

(** The cell [concat] holds for the cell [c] of a frame: [c] itself, or
    the float of an integer where the column became [float64]. *)
Definition upcast (c c' : cell) : Prop :=
  c' = c \/ exists z, c = Py (PInt z) /\ c' = Py (PFloat (float_of_Z z)).

(** [pd.isna] *)
Definition is_null (c : cell) : Prop :=
  c = Py PNone \/ c = Py (PFloat FNaN) \/ c = NaT.

(** The number zero, as an integer or as a float. *)
Definition is_zero (c : cell) : Prop :=
  c = Py (PInt 0) \/ c = Py (PFloat (float_of_Z 0)).

Definition fetch_columns : list string :=
  ["timestamp"; "temperature"; "humidity"; "wind_speed"; "pressure";
   "visibility"; "rainfall"; "cloud_cover"; "icon"; "description"].

(** Row [i] of [df] holds the values [v] of an entry. *)
Definition row_holds (df : DataFrame) (i : nat) (v : entry_values) : Prop :=
  (exists s t, v_dt_txt v = PStr s /\ parse_iso s = Some t /\
               cell_at df "timestamp" i = Some (Ts t)) /\
  Forall (fun nv : string * pyobj =>
            exists c, cell_at df nv.1 i = Some c /\ stored nv.2 c)
    [("temperature", v_temp v); ("humidity", v_humidity v);
     ("wind_speed", v_speed v); ("pressure", v_pressure v);
     ("visibility", v_visibility v); ("rainfall", v_rain v);
     ("cloud_cover", v_clouds v); ("icon", v_icon v);
     ("description", v_description v)].

(** The text of the file at [filename], line by line. *)
Definition file_text (w : world) (filename : string) : option (list string) :=
  match files w !! filename with
  | Some lines => Some (map csv_line lines)
  | None => None
  end.

(** The cells of column [name] of a frame. *)
Definition column_cells (name : string) (df : DataFrame) : option (list cell) :=
  match column_of name df with
  | Some c => Some (cells c)
  | None => None
  end.

(** ** Example data *)

Definition delhi_entry : pyobj :=
  PDict [("dt_txt", PStr "2024-06-01 12:00:00");
         ("main", PDict [("temp", PFloat (FDec 305 (-1))); ("humidity", PInt 40);
                         ("pressure", PInt 1008)]);
         ("wind", PDict [("speed", PFloat (FDec 32 (-1)))]);
         ("clouds", PDict [("all", PInt 10)]);
         ("weather", PList [PDict [("icon", PStr "01d");
                                   ("description", PStr "clear sky")]])].

Definition delhi_body : pyobj := PDict [("list", PList [delhi_entry])].

Definition delhi_registry : list (string * string) := [("Delhi", "1273294")].

Definition delhi_net : network := fun _ _ => Response 200 delhi_body.

(** The frame the driver hands to the persister for [delhi_entry]. *)
Definition delhi_frame : DataFrame :=
  [("timestamp", Datetime64 [Some (mkDatetime 2024 6 1 12 0 0)]);
   ("temperature", Float64 [FDec 305 (-1)]);
   ("humidity", Int64 [40%Z]);
   ("wind_speed", Float64 [FDec 32 (-1)]);
   ("pressure", Int64 [1008%Z]);
   ("visibility", Object [Py PNone]);
   ("rainfall", Int64 [0%Z]);
   ("cloud_cover", Int64 [10%Z]);
   ("icon", Object [Py (PStr "01d")]);
   ("description", Object [Py (PStr "clear sky")]);
   ("city", Object [Py (PStr "Delhi")])].

Definition header_text : string :=
  "timestamp,temperature,humidity,wind_speed,pressure,visibility,rainfall,cloud_cover,icon,description,city".

Definition delhi_text : string :=
  "2024-06-01 12:00:00,30.5,40,3.2,1008,,0,10,01d,clear sky,Delhi".

(** No file, no fault. *)
Definition no_files : world := mkWorld ∅ [] None None.

(** An entry without [main]. *)
Definition malformed_entry : pyobj :=
  PDict [("dt_txt", PStr "2024-06-01 12:00:00");
         ("wind", PDict [("speed", PFloat (FDec 32 (-1)))]);
         ("clouds", PDict [("all", PInt 10)]);
         ("weather", PList [PDict [("icon", PStr "01d");
                                   ("description", PStr "clear sky")]])].

Definition malformed_net : network :=
  fun _ _ => Response 200 (PDict [("list", PList [malformed_entry])]).

Definition down_net : network := fun _ _ => Unreachable.

(** A file at the output path that cannot be opened for reading. *)
Definition unreadable : world :=
  mkWorld {[output_path := [["timestamp"; "city"]; ["2024-05-31 09:00:00"; "Pune"]]]}
          [] (Some PermissionError) None.

(** Two rows for the same timestamp and city. *)
Definition twin_rows : DataFrame :=
  [("timestamp", Datetime64 [Some (mkDatetime 2024 6 1 12 0 0);
                             Some (mkDatetime 2024 6 1 12 0 0)]);
   ("temperature", Float64 [FDec 305 (-1); FDec 31 0]);
   ("city", Object [Py (PStr "Delhi"); Py (PStr "Delhi")])].

(** A file at the output path from an earlier run, read without fault. *)
Definition earlier_run : world :=
  mkWorld {[output_path :=
              [["timestamp"; "temperature"; "humidity"; "wind_speed"; "pressure";
                "visibility"; "rainfall"; "cloud_cover"; "icon"; "description";
                "city"];
               ["2024-06-01 12:00:00"; "29.0"; "45"; "2.5"; "1009"; "10000"; "0";
                "20"; "02d"; "few clouds"; "Delhi"]]]}
          [] None None.

(** The frame [get_weather_data] builds from the values [vs] of the
    entries and the timestamps [ts] read from their [dt_txt]. *)
Definition frame_of_values (vs : list entry_values) (ts : list datetime)
    : DataFrame :=
  [("timestamp", Datetime64 (Some <$> ts));
   ("temperature", sanitize (v_temp <$> vs));
   ("humidity", sanitize (v_humidity <$> vs));
   ("wind_speed", sanitize (v_speed <$> vs));
   ("pressure", sanitize (v_pressure <$> vs));
   ("visibility", sanitize (v_visibility <$> vs));
   ("rainfall", sanitize (v_rain <$> vs));
   ("cloud_cover", sanitize (v_clouds <$> vs));
   ("icon", sanitize (v_icon <$> vs));
   ("description", sanitize (v_description <$> vs))].

(** The timestamp [t] is what the [dt_txt] of [v] reads as. *)
Definition timestamp_of (v : entry_values) (t : datetime) : Prop :=
  exists s, v_dt_txt v = PStr s /\ parse_iso s = Some t.

(** An entry with [visibility] and [rain]. *)
Definition rainy_entry : pyobj :=
  PDict [("dt_txt", PStr "2024-06-01 15:00:00");
         ("main", PDict [("temp", PInt 29); ("humidity", PInt 70);
                         ("pressure", PInt 1006)]);
         ("wind", PDict [("speed", PFloat (FDec 41 (-1)))]);
         ("visibility", PInt 8000);
         ("rain", PDict [("3h", PFloat (FDec 12 (-1)))]);
         ("clouds", PDict [("all", PInt 90)]);
         ("weather", PList [PDict [("icon", PStr "10d");
                                   ("description", PStr "light rain")]])].

(** Two entries: the first without [visibility] and [rain], the second
    with both. *)
Definition two_entries : pyobj := PDict [("list", PList [delhi_entry; rainy_entry])].

Definition two_net : network := fun _ _ => Response 200 two_entries.

(** ** Notions of the statements on concat and drop_duplicates *)

Definition piece_of (name : string) (f : DataFrame) : piece :=
  (column_of name f, nrows f).

(** The cells a piece contributes to a column of dtype [d]. *)
Definition piece_cells (d : dtype) (p : piece) : list cell :=
  match d with
  | DInt64 => (fun z => Py (PInt z)) <$> ints_of p
  | DFloat64 => (fun f => Py (PFloat f)) <$> floats_of p
  | DDatetime64 => ts_cell <$> times_of p
  | DObject => cells_of p
  end.

(** The row of [concat frames] at which the rows of frame [k] begin. *)
Definition offset (frames : list DataFrame) (k : nat) : nat :=
  sum_list (nrows <$> take k frames).

(** No earlier row has the key of row [i]. *)
Definition first_occurrence {K} (keys : list K) (i : nat) : Prop :=
  forall j, j < i -> keys !! j <> keys !! i.

(** The rows a mask keeps, by their number. *)
Definition kept_rows (mask : list bool) : list nat :=
  drop_where mask (seq 0 (length mask)).

(** The rows [kept] of [all], in this order, are the rows of [out]. *)
Definition rows_selected (kept : list nat) (all out : DataFrame) : Prop :=
  columns out = columns all /\
  forall name r, cell_at out name r = kept !! r ≫= cell_at all name.

(** The key columns of the merge. *)
Definition merge_key : list string := ["timestamp"; "city"].

(** What [read_csv] returns for the file of [earlier_run]. *)
Definition earlier_frame : DataFrame :=
  [("timestamp", Object [Py (PStr "2024-06-01 12:00:00")]);
   ("temperature", Float64 [FDec 290 (-1)]);
   ("humidity", Int64 [45%Z]);
   ("wind_speed", Float64 [FDec 25 (-1)]);
   ("pressure", Int64 [1009%Z]);
   ("visibility", Int64 [10000%Z]);
   ("rainfall", Int64 [0%Z]);
   ("cloud_cover", Int64 [20%Z]);
   ("icon", Object [Py (PStr "02d")]);
   ("description", Object [Py (PStr "few clouds")]);
   ("city", Object [Py (PStr "Delhi")])].

(** A table whose timestamps are texts: its first row has the timestamp
    and city of the row of [earlier_frame], its second row is new. *)
Definition text_frame : DataFrame :=
  [("timestamp", Object [Py (PStr "2024-06-01 12:00:00");
                         Py (PStr "2024-06-01 15:00:00")]);
   ("temperature", Float64 [FDec 305 (-1); FDec 29 0]);
   ("humidity", Int64 [40%Z; 70%Z]);
   ("wind_speed", Float64 [FDec 32 (-1); FDec 41 (-1)]);
   ("pressure", Int64 [1008%Z; 1006%Z]);
   ("visibility", Float64 [FNaN; FDec 8000 0]);
   ("rainfall", Float64 [FDec 0 0; FDec 12 (-1)]);
   ("cloud_cover", Int64 [10%Z; 90%Z]);
   ("icon", Object [Py (PStr "01d"); Py (PStr "10d")]);
   ("description", Object [Py (PStr "clear sky"); Py (PStr "light rain")]);
   ("city", Object [Py (PStr "Delhi"); Py (PStr "Delhi")])].

(** The keys of the rows of [concat [earlier_frame; text_frame]]. *)
Definition text_keys : list (list (option hkey)) :=
  [[Some (KStr "2024-06-01 12:00:00"); Some (KStr "Delhi")];
   [Some (KStr "2024-06-01 12:00:00"); Some (KStr "Delhi")];
   [Some (KStr "2024-06-01 15:00:00"); Some (KStr "Delhi")]].

(** [k] is the key of row [i] of [df]: the hashes of its timestamp and of
    its city. *)
Definition key_of_row (df : DataFrame) (i : nat) (k : list (option hkey)) : Prop :=
  exists ct cc kt kc,
    cell_at df "timestamp" i = Some ct /\ cell_key ct = Return kt /\
    cell_at df "city" i = Some cc /\ cell_key cc = Return kc /\
    k = [Some kt; Some kc].

(** A cell that can be a key. *)
Definition hashable (c : cell) : Prop := exists k, cell_key c = Return k.

(** A table the merge can key: it has a [timestamp] and a [city] column of
    hashable cells. *)
Definition keyed (df : DataFrame) : bool :=
  match frame_keys merge_key df with
  | Return _ => true
  | Raise _ => false
  end.

#[global] Instance wf_frame_dec df : Decision (wf_frame df).
Proof. unfold wf_frame. apply _. Defined.

(** A cell whose key is no [Timestamp]. *)
Definition untimed (c : cell) : Prop := forall t, cell_key c <> Return (KTime t).

(** ** Notions of the further properties *)

(** The computation returns; it does not raise. *)
Definition returns {A} (o : outcome A) : bool :=
  match o with
  | Return _ => true
  | Raise _ => false
  end.

(** The request of a fetch fails: no reply, an error status, or a body
    that is no JSON. *)
Definition request_fails (r : reply) : bool :=
  match r with
  | Unreachable => true
  | Response status _ => http_error status
  | Undecodable _ => true
  end.

(** An entry with everything the loop looks up: a dict with [dt_txt], the
    dicts [main] (with [temp], [humidity], [pressure]), [wind] (with
    [speed]) and [clouds] (with [all]), a non-empty list [weather] whose
    first element is a dict with [icon] and [description], and, when it
    has a [rain], a dict there. *)
Definition complete_entry (item : pyobj) : bool :=
  match item with
  | PDict d =>
      has_key "dt_txt" d &&
      match dict_lookup "main" d with
      | Some (PDict m) => has_key "temp" m && has_key "humidity" m && has_key "pressure" m
      | _ => false
      end &&
      match dict_lookup "wind" d with
      | Some (PDict x) => has_key "speed" x
      | _ => false
      end &&
      match dict_lookup "clouds" d with
      | Some (PDict x) => has_key "all" x
      | _ => false
      end &&
      match dict_lookup "weather" d with
      | Some (PList (PDict x :: _)) => has_key "icon" x && has_key "description" x
      | _ => false
      end &&
      match dict_lookup "rain" d with
      | None | Some (PDict _) => true
      | Some _ => false
      end
  | _ => false
  end.

(** The exceptions of a look-up. *)
Definition lookup_errors : list exn := [KeyError; TypeError; IndexError; AttributeError].

(** [o] raises nothing but exceptions of [es]. *)
Definition raises_in {A} (es : list exn) (o : outcome A) : Prop :=
  forall e, o = Raise e -> e ∈ es.

(** The entries the loop of [get_weather_data] goes through:
    [weather_data['list']], iterated. *)
Definition entries_of (weather_data : pyobj) : outcome (list pyobj) :=
  entries ← getitem weather_data "list"; iter entries.

(** The frame the driver keeps for a city: the frame its fetch returned,
    tagged with its name; nothing when the fetch returned [None]. *)
Definition fetched (net : network) (c : string * string) : option DataFrame :=
  match get_weather_data net API_KEY c.2 with
  | Return (Some weather_df) => Some (tag_city c.1 weather_df)
  | _ => None
  end.

(** A frame without [timestamp] and without [city], and a file without
    them. *)
Definition bare_frame : DataFrame := [("temperature", Float64 [FDec 305 (-1)])].

Definition bare_file : world :=
  mkWorld {[output_path := [["temperature"]; ["29.0"]]]} [] None None.

(** A file of no bytes at the output path. *)
Definition empty_file : world := mkWorld {[output_path := []]} [] None None.

(** The first city answers, the second sends a malformed entry. *)
Definition second_malformed : network :=
  fun id _ =>
    if String.eqb id "1273313" then Response 200 delhi_body
    else Response 200 (PDict [("list", PList [malformed_entry])]).

(** Only Delhi answers (with [two_entries]); the other cities are down. *)
Definition delhi_only : network :=
  fun id _ => if String.eqb id "1273294" then Response 200 two_entries else Unreachable.

(** The keys of the rows of [concat [earlier_frame; delhi_frame]]. *)
Definition delhi_keys : list (list (option hkey)) :=
  [[Some (KStr "2024-06-01 12:00:00"); Some (KStr "Delhi")];
   [Some (KTime (mkDatetime 2024 6 1 12 0 0)); Some (KStr "Delhi")]].

(** The line of the file of [earlier_run]. *)
Definition earlier_text : string :=
  "2024-06-01 12:00:00,29.0,45,2.5,1009,10000,0,20,02d,few clouds,Delhi".

(** A body whose second entry is malformed, between two complete ones. *)
Definition mixed_body : pyobj :=
  PDict [("list", PList [delhi_entry; malformed_entry; rainy_entry])].

Definition mixed_net : network := fun _ _ => Response 200 mixed_body.

(** A body without [list], as the API sends it with a message. *)
Definition no_list_net : network :=
  fun _ _ => Response 200 (PDict [("cod", PStr "200"); ("message", PInt 0)]).

(** The program run once for each network of [nets], one run after the
    other: the world the last run leaves. *)
Definition runs (nets : list network) (cities : list (string * string)) (w : world)
    : world :=
  foldl (fun w' net => (run net cities w').1) w nets.

(** * Properties *)

(** ** save_weather_data: what leaves it, and when it writes *)

Lemma save_never_raises df filename w :
  (save_weather_data df filename w).2 = Return tt.
Proof.
  unfold save_weather_data.
  destruct (save_body df filename w) as [w' [[]|e]]; reflexivity.
Qed.

Lemma save_merged df df' filename w :
  merged df filename w = Return df' ->
  save_weather_data df filename w =
    match write_fault w with
    | None => (write_file filename (to_csv_lines df') w, Return tt)
    | Some _ => (w, Return tt)
    end.
Proof.
  intros Hm. unfold save_weather_data, save_body, to_csv. rewrite Hm.
  by destruct (write_fault w).
Qed.

Lemma save_merge_error df e filename w :
  merged df filename w = Raise e ->
  save_weather_data df filename w = (w, Return tt).
Proof.
  intros Hm. unfold save_weather_data, save_body. by rewrite Hm.
Qed.

Lemma merged_read_error df e filename w :
  read_csv filename w = Raise e ->
  merged df filename w =
    if is_FileNotFoundError e then Return df else Raise e.
Proof. intros Hr. unfold merged. by rewrite Hr. Qed.

Lemma read_csv_absent filename w :
  read_fault w = None -> files w !! filename = None ->
  read_csv filename w = Raise FileNotFoundError.
Proof. intros Hf Hn. unfold read_csv. by rewrite Hf, Hn. Qed.

Lemma to_csv_lines_length df : length (to_csv_lines df) = S (nrows df).
Proof. unfold to_csv_lines. simpl. by rewrite length_fmap, length_seq. Qed.

Lemma to_csv_lines_row df i :
  i < nrows df -> to_csv_lines df !! S i = Some (row_fields df i).
Proof.
  intros Hi. unfold to_csv_lines. simpl.
  rewrite list_lookup_fmap, lookup_seq_lt by done. done.
Qed.

(** C9. With no file at the path, [save_weather_data] writes the table as
    it is: the header and then every row in its place, also rows that
    share their timestamp and city with an earlier row. *)
Theorem save_without_prior_file df filename w :
  files w !! filename = None -> read_fault w = None -> write_fault w = None ->
  save_weather_data df filename w =
    (write_file filename (to_csv_lines df) w, Return tt) /\
  to_csv_lines df !! 0 = Some (columns df) /\
  length (to_csv_lines df) = S (nrows df) /\
  forall i, i < nrows df -> to_csv_lines df !! S i = Some (row_fields df i).
Proof.
  intros Hn Hr Hw. split; [|split; [done|split]].
  - rewrite (save_merged df df).
    + by rewrite Hw.
    + rewrite (merged_read_error df FileNotFoundError); [done|].
      by apply read_csv_absent.
  - apply to_csv_lines_length.
  - apply to_csv_lines_row.
Qed.

Lemma save_without_prior_file_witness :
  save_weather_data twin_rows output_path no_files =
    (write_file output_path (to_csv_lines twin_rows) no_files, Return tt) /\
  to_csv_lines twin_rows !! 0 = Some (columns twin_rows) /\
  length (to_csv_lines twin_rows) = S (nrows twin_rows) /\
  forall i, i < nrows twin_rows ->
    to_csv_lines twin_rows !! S i = Some (row_fields twin_rows i).
Proof. apply (save_without_prior_file twin_rows output_path no_files); reflexivity. Defined.

(** Both rows of [twin_rows] reach the file. *)
Example twin_rows_written :
  files (save_weather_data twin_rows output_path no_files).1 !! output_path =
    Some [["timestamp"; "temperature"; "city"];
          ["2024-06-01 12:00:00"; "30.5"; "Delhi"];
          ["2024-06-01 12:00:00"; "31.0"; "Delhi"]].
Proof. vm_compute. reflexivity. Qed.

(** C7 (as amended). [save_weather_data] never raises. When reading the
    existing file fails with [FileNotFoundError] the table is written as
    it is (unless the write fails too); when it fails with anything else,
    nothing is written and the world is left as it was. *)
Theorem save_on_read_failure df filename w :
  (save_weather_data df filename w).2 = Return tt /\
  forall e, read_csv filename w = Raise e ->
    (save_weather_data df filename w).1 =
      if is_FileNotFoundError e
      then match write_fault w with
           | None => write_file filename (to_csv_lines df) w
           | Some _ => w
           end
      else w.
Proof.
  split; [apply save_never_raises|].
  intros e He. pose proof (merged_read_error df e filename w He) as Hm.
  destruct (is_FileNotFoundError e).
  - rewrite (save_merged _ _ _ _ Hm). by destruct (write_fault w).
  - by rewrite (save_merge_error _ _ _ _ Hm).
Qed.

Lemma save_on_read_failure_witness :
  (save_weather_data delhi_frame output_path unreadable).2 = Return tt /\
  (save_weather_data delhi_frame output_path unreadable).1 = unreadable.
Proof.
  destruct (save_on_read_failure delhi_frame output_path unreadable) as [Hr Hw].
  split; [exact Hr|].
  exact (Hw PermissionError eq_refl).
Defined.

(** C7, as stated, fails: the file at the path cannot be opened for
    reading ([PermissionError]); the new table is not written, the file
    keeps its old content and no write takes place. *)
Lemma save_unreadable_file_not_written :
  read_csv output_path unreadable = Raise PermissionError /\
  save_weather_data delhi_frame output_path unreadable = (unreadable, Return tt) /\
  files unreadable !! output_path <> Some (to_csv_lines delhi_frame) /\
  writes (save_weather_data delhi_frame output_path unreadable).1 = [].
Proof. vm_compute. repeat split. discriminate. Qed.

(** ** The driver *)

Lemma fetch_all_none net cities acc :
  (forall city city_id, (city, city_id) ∈ cities ->
     get_weather_data net API_KEY city_id = Return None) ->
  fetch_all net cities acc = Return acc.
Proof.
  revert acc. induction cities as [|[city city_id] rest IH]; intros acc Hall; [done|].
  simpl. rewrite (Hall city city_id (list_elem_of_here _ _)). simpl.
  apply IH. intros c i Hci. apply (Hall c i). by apply list_elem_of_further.
Qed.

(** C6. When every fetch returns the failure sentinel the driver leaves
    the world as it was: no file is written (the list of writes does not
    grow) and every file keeps its content. *)
Theorem no_fetch_no_write net cities w :
  (forall city city_id, (city, city_id) ∈ cities ->
     get_weather_data net API_KEY city_id = Return None) ->
  run net cities w = (w, ExitNormal).
Proof.
  intros Hall. unfold run. by rewrite (fetch_all_none net cities [] Hall).
Qed.

Lemma no_fetch_no_write_witness :
  run down_net CITIES earlier_run = (earlier_run, ExitNormal).
Proof. apply (no_fetch_no_write down_net CITIES earlier_run). reflexivity. Defined.

(** C1, as stated, fails: every city answers with an entry that has no
    [main]; the [KeyError] of the look-up is no [RequestException], leaves
    [get_weather_data] and ends the program. *)
Lemma main_malformed_entry_uncaught :
  get_weather_data malformed_net API_KEY "1273313" = Raise KeyError /\
  main malformed_net no_files = (no_files, Uncaught KeyError).
Proof. split; reflexivity. Qed.

(** ** End to end *)

Lemma delhi_fetch net :
  net "1273294" API_KEY = Response 200 delhi_body ->
  fetch_all net delhi_registry [] = Return [delhi_frame].
Proof.
  intros Hnet. unfold delhi_registry, fetch_all, get_weather_data, requests_get.
  rewrite Hnet. reflexivity.
Qed.

Lemma delhi_lines :
  map csv_line (to_csv_lines delhi_frame) = [header_text; delhi_text].
Proof. vm_compute. reflexivity. Qed.

Lemma concat_delhi : concat [delhi_frame] = delhi_frame.
Proof. vm_compute. reflexivity. Qed.

(** C8. The registry is [{"Delhi": "1273294"}], there is no file at the
    output path, and the response holds the one entry of the claim: the
    run ends normally and the file is the header line followed by the one
    line of the claim. *)
Theorem delhi_end_to_end net w :
  net "1273294" API_KEY = Response 200 delhi_body ->
  files w !! output_path = None -> read_fault w = None -> write_fault w = None ->
  (run net delhi_registry w).2 = ExitNormal /\
  file_text (run net delhi_registry w).1 output_path =
    Some [header_text; delhi_text].
Proof.
  intros Hnet Hn Hr Hw. unfold run. rewrite (delhi_fetch net Hnet), concat_delhi.
  rewrite (save_merged delhi_frame delhi_frame).
  - rewrite Hw. split; [done|]. unfold file_text. simpl.
    rewrite lookup_insert_eq. by rewrite delhi_lines.
  - rewrite (merged_read_error _ FileNotFoundError); [done|].
    by apply read_csv_absent.
Qed.

Lemma delhi_end_to_end_witness :
  (run delhi_net delhi_registry no_files).2 = ExitNormal /\
  file_text (run delhi_net delhi_registry no_files).1 output_path =
    Some [header_text; delhi_text].
Proof. apply (delhi_end_to_end delhi_net no_files); reflexivity. Defined.

(** A text is never the duplicate of a [Timestamp]. *)
Lemma text_key_is_no_timestamp_key s t :
  cell_key (Py (PStr s)) <> cell_key (Ts t).
Proof. done. Qed.

(** C2, on the code. The table of the Delhi run is saved twice: the first
    save writes one line under the header; the second reads that line
    back with its timestamp as a text, which is no duplicate of the
    [Timestamp] of the new row, and writes the row twice. *)
Theorem save_twice_duplicates_rows :
  file_text (save_weather_data delhi_frame output_path no_files).1 output_path =
    Some [header_text; delhi_text] /\
  column_cells "timestamp" <$>
    merged delhi_frame output_path
      (save_weather_data delhi_frame output_path no_files).1 =
    Return (Some [Py (PStr "2024-06-01 12:00:00"); Ts (mkDatetime 2024 6 1 12 0 0)]) /\
  file_text
    (save_weather_data delhi_frame output_path
       (save_weather_data delhi_frame output_path no_files).1).1 output_path =
    Some [header_text; delhi_text; delhi_text].
Proof. vm_compute. repeat split. Qed.

(** The same through the driver: the program is run twice. *)
Example run_twice_duplicates_rows :
  let w1 := (run delhi_net delhi_registry no_files).1 in
  let w2 := (run delhi_net delhi_registry w1).1 in
  file_text w2 output_path = Some [header_text; delhi_text; delhi_text].
Proof. vm_compute. reflexivity. Qed.

(** ** The loop of get_weather_data *)

Lemma mapO_Forall2 {A B} (f : A -> outcome B) l l' :
  mapO f l = Return l' <-> Forall2 (fun x y => f x = Return y) l l'.
Proof.
  revert l'. induction l as [|x l IH]; intros l'; simpl.
  - split; [intros [= <-]; constructor|by inversion 1].
  - destruct (f x) as [y|e] eqn:Hx; simpl.
    + destruct (mapO f l) as [ys|e] eqn:Hl; simpl.
      * split.
        -- intros [= <-]. constructor; [done|]. by apply IH.
        -- inversion 1 as [|? y' ? ys' Hy Hys]; subst.
           apply IH in Hys. congruence.
      * split; [done|]. inversion 1 as [|? y' ? ys' Hy Hys]; subst.
        apply IH in Hys. done.
    + split; [done|]. inversion 1; congruence.
Qed.

Lemma mapO_length {A B} (f : A -> outcome B) l l' :
  mapO f l = Return l' -> length l' = length l.
Proof. intros H%mapO_Forall2. symmetry. by eapply Forall2_length. Qed.

Lemma mapO_lookup {A B} (f : A -> outcome B) l l' i x :
  mapO f l = Return l' -> l !! i = Some x ->
  exists y, l' !! i = Some y /\ f x = Return y.
Proof.
  intros H%mapO_Forall2 Hx.
  destruct (Forall2_lookup_l _ _ _ _ _ H Hx) as (y & Hy & Hf). eauto.
Qed.

Lemma mapO_total {A B} (f : A -> outcome B) l :
  Forall (fun x => exists y, f x = Return y) l -> exists l', mapO f l = Return l'.
Proof.
  induction 1 as [|x l [y Hy] _ [l' IH]]; simpl; [by eexists|].
  rewrite Hy, IH. simpl. by eexists.
Qed.

(** The loop appends, entry by entry, the values its look-ups return. *)
Lemma for_items_mapO items a :
  for_items items a =
    vs ← mapO lookups items; Return (foldl (fun a v => append_values v a) a vs).
Proof.
  revert a. induction items as [|item items IH]; intros a; simpl; [done|].
  unfold loop_body. destruct (lookups item) as [v|e]; simpl; [|done].
  rewrite IH. by destruct (mapO lookups items).
Qed.

Lemma foldl_append_values a vs :
  foldl (fun a v => append_values v a) a vs =
    mkLists
      (timestamps a ++ (v_dt_txt <$> vs)) (temperatures a ++ (v_temp <$> vs))
      (humidity a ++ (v_humidity <$> vs)) (wind_speed a ++ (v_speed <$> vs))
      (pressure a ++ (v_pressure <$> vs)) (visibility a ++ (v_visibility <$> vs))
      (rainfall a ++ (v_rain <$> vs)) (cloud_cover a ++ (v_clouds <$> vs))
      (icons a ++ (v_icon <$> vs)) (descriptions a ++ (v_description <$> vs)).
Proof.
  revert a. induction vs as [|v vs IH]; intros a; simpl.
  - destruct a; simpl. by rewrite !app_nil_r.
  - rewrite IH. simpl. by rewrite <- !app_assoc.
Qed.

Lemma for_items_Return items a a' :
  for_items items a = Return a' ->
  exists vs, mapO lookups items = Return vs /\
    a' = foldl (fun a v => append_values v a) a vs.
Proof.
  rewrite for_items_mapO. destruct (mapO lookups items) as [vs|e]; simpl; [|done].
  intros [= <-]. eauto.
Qed.

(** A well-formed entry passes every look-up, and its [dt_txt] is a text
    in the form of a timestamp. *)
Ltac rewrite_lookups :=
  repeat (simpl;
          match goal with
          | H : dict_lookup _ _ = _ |- _ => rewrite H
          end);
  simpl.

Lemma lookups_valid item :
  valid_entry item = true ->
  exists v, lookups item = Return v /\
    exists s t, v_dt_txt v = PStr s /\ parse_iso s = Some t.
Proof.
  destruct item as [| | | | |?|d]; try done. unfold valid_entry, has_key.
  rewrite !andb_true_iff. intros (((((H1 & H2) & H3) & H4) & H5) & H6).
  destruct (dict_lookup "dt_txt" d) as [[| | | |s| |]|] eqn:E1; try done.
  destruct (parse_iso s) as [t|] eqn:Ht; [|done].
  destruct (dict_lookup "main" d) as [[| | | | | |m]|] eqn:E2; try done.
  destruct (dict_lookup "temp" m) eqn:E3, (dict_lookup "humidity" m) eqn:E4,
    (dict_lookup "pressure" m) eqn:E5; try done.
  destruct (dict_lookup "wind" d) as [[| | | | | |x]|] eqn:E6; try done.
  destruct (dict_lookup "speed" x) eqn:E7; [|done].
  destruct (dict_lookup "clouds" d) as [[| | | | | |y]|] eqn:E8; try done.
  destruct (dict_lookup "all" y) eqn:E9; [|done].
  destruct (dict_lookup "weather" d)
    as [[| | | | |[|[| | | | | |z] ?]|]|] eqn:E10; try done.
  destruct (dict_lookup "icon" z) eqn:E11, (dict_lookup "description" z) eqn:E12;
    try done.
  unfold lookups, getitem, get.
  destruct (dict_lookup "rain" d) as [[| | | | | |r]|] eqn:E13; try done;
    rewrite_lookups; eexists; (split; [reflexivity|]); simpl; eauto.
Qed.

Lemma bind_Return_inv {A B} (m : outcome A) (f : A -> outcome B) b :
  m ≫= f = Return b -> exists a, m = Return a /\ f a = Return b.
Proof. destruct m as [a|e]; [|done]. simpl. eauto. Qed.

Ltac bind_inv H :=
  repeat (apply bind_Return_inv in H as (? & ? & H)).

Ltac outcome_inv :=
  repeat match goal with
         | H : (_ ≫= _) = Return _ |- _ => apply bind_Return_inv in H as (? & ? & ?)
         | H : Return _ = Return _ |- _ => injection H as ?
         end;
  subst.

Lemma lookups_lacks_rain item v :
  lookups item = Return v -> lacks_rain item = true -> v_rain v = PInt 0.
Proof.
  destruct item as [| | | | |?|d]; try done. unfold lacks_rain, has_key.
  intros Hv Hl. unfold lookups in Hv. bind_inv Hv. injection Hv as <-. simpl.
  match goal with
  | H : (get _ "rain" _ ≫= _) = Return ?x |- ?x = _ => rename H into Hr
  end.
  simpl in Hr.
  destruct (dict_lookup "rain" d) as [[| | | | | |r]|]; try done; simpl in Hr.
  - destruct (dict_lookup "3h" r); [done|]. simpl in Hr. congruence.
  - congruence.
Qed.

Lemma lookups_lacks_visibility item v :
  lookups item = Return v -> lacks_visibility item = true -> v_visibility v = PNone.
Proof.
  destruct item as [| | | | |?|d]; try done. unfold lacks_visibility, has_key.
  intros Hv Hl. unfold lookups in Hv. bind_inv Hv. injection Hv as <-. simpl.
  match goal with
  | H : get _ "visibility" _ = Return ?x |- ?x = _ => rename H into Hr
  end.
  simpl in Hr. destruct (dict_lookup "visibility" d); [done|]. simpl in Hr.
  congruence.
Qed.

(** ** The constructor and the timestamps *)

Lemma forallb_lookup {A} (p : A -> bool) l i x :
  forallb p l = true -> l !! i = Some x -> p x = true.
Proof.
  revert i. induction l as [|y l IH]; intros [|i]; simpl; try done.
  - intros [H _]%andb_true_iff [= <-]. done.
  - intros [_ H]%andb_true_iff. by apply IH.
Qed.

Lemma existsb_lookup {A} (p : A -> bool) l i x :
  existsb p l = false -> l !! i = Some x -> p x = false.
Proof.
  revert i. induction l as [|y l IH]; intros [|i]; simpl; try done.
  - intros [H _]%orb_false_iff [= <-]. done.
  - intros [_ H]%orb_false_iff. by apply IH.
Qed.

Lemma sanitize_length l : col_len (sanitize l) = length l.
Proof.
  unfold sanitize, col_len.
  repeat case_match; simpl; by rewrite ?length_fmap.
Qed.

Lemma sanitize_nonempty l :
  l <> [] ->
  sanitize l =
    let ks := kind_of <$> l in
    if existsb is_other ks then Object (Py <$> l)
    else if forallb is_none ks then Object (Py <$> l)
    else if forallb is_int ks then Int64 (as_int <$> l)
    else Float64 (as_float <$> l).
Proof. by destruct l. Qed.

Lemma sanitize_stored l i v :
  l !! i = Some v -> exists c, cells (sanitize l) !! i = Some c /\ stored v c.
Proof.
  intros Hv. rewrite sanitize_nonempty by (by intros ->). cbv zeta.
  destruct (existsb is_other (kind_of <$> l)) eqn:Ho; simpl.
  { exists (Py v). rewrite list_lookup_fmap, Hv. split; [done|by left]. }
  destruct (forallb is_none (kind_of <$> l)) eqn:Hn; simpl.
  { exists (Py v). rewrite list_lookup_fmap, Hv. split; [done|by left]. }
  assert (is_other (kind_of v) = false) as Hov.
  { eapply existsb_lookup; [exact Ho|]. by rewrite list_lookup_fmap, Hv. }
  destruct (forallb is_int (kind_of <$> l)) eqn:Hi; simpl.
  - assert (is_int (kind_of v) = true) as Hiv.
    { eapply forallb_lookup; [exact Hi|]. by rewrite list_lookup_fmap, Hv. }
    rewrite !list_lookup_fmap, Hv. simpl. eexists; split; [done|].
    destruct v; try done. by left.
  - rewrite !list_lookup_fmap, Hv. simpl. eexists; split; [done|].
    destruct v; simpl in *; try done.
    + right; right. done.
    + right; left. eauto.
    + by left.
Qed.

Lemma sanitize_texts l :
  l <> [] ->
  Forall (fun v => exists s, v = PStr s) l -> sanitize l = Object (Py <$> l).
Proof.
  intros Hne Hl. rewrite sanitize_nonempty by done. cbv zeta.
  destruct (existsb is_other (kind_of <$> l)) eqn:Ho; [done|].
  destruct (forallb is_none (kind_of <$> l)) eqn:Hn; [done|].
  destruct Hl as [|v l [s ->] _]; simpl in *; done.
Qed.

Lemma parse_texts vs :
  Forall (fun v => exists s t, v_dt_txt v = PStr s /\ parse_iso s = Some t) vs ->
  exists ts,
    mapO parse_cell (Py <$> (v_dt_txt <$> vs)) = Return (Some <$> ts) /\
    Forall2 timestamp_of vs ts.
Proof.
  induction 1 as [|v vs (s & t & Hs & Ht) _ (ts & IH & Hts)]; simpl.
  - exists []. split; [done|constructor].
  - exists (t :: ts). rewrite !fmap_cons. cbn [mapO]. rewrite Hs. cbn [parse_cell].
    rewrite Ht. cbn [mbind outcome_bind].
    change (list_fmap pyobj cell Py (list_fmap entry_values pyobj v_dt_txt vs))
      with (Py <$> (v_dt_txt <$> vs)).
    rewrite IH.
    split; [done|]. constructor; [|done]. by exists s.
Qed.

(** A body of well-formed entries: the fetch returns the frame of their
    values, the timestamps read from their [dt_txt]. *)
Lemma get_weather_data_frame net api_key city_id status body items :
  net city_id api_key = Response status body ->
  http_error status = false ->
  getitem body "list" = Return (PList items) ->
  forallb valid_entry items = true ->
  exists vs ts,
    mapO lookups items = Return vs /\
    Forall2 timestamp_of vs ts /\
    get_weather_data net api_key city_id = Return (Some (frame_of_values vs ts)).
Proof.
  intros Hnet Hst Hlist Hvalid.
  assert (Forall (fun item => exists v, lookups item = Return v /\
            exists s t, v_dt_txt v = PStr s /\ parse_iso s = Some t) items) as Hall.
  { apply Forall_lookup. intros i item Hi. apply lookups_valid.
    by eapply forallb_lookup. }
  destruct (mapO_total lookups items) as [vs Hvs].
  { eapply Forall_impl; [exact Hall|]. intros item (v & Hv & _). eauto. }
  assert (Forall (fun v => exists s t, v_dt_txt v = PStr s /\ parse_iso s = Some t) vs)
    as Hdts.
  { apply Forall_lookup. intros i v Hi.
    apply mapO_Forall2 in Hvs.
    destruct (Forall2_lookup_r _ _ _ _ _ Hvs Hi) as (item & Hitem & Hl).
    rewrite Forall_lookup in Hall. destruct (Hall _ _ Hitem) as (v' & Hv' & Hst').
    by replace v with v' by congruence. }
  destruct (parse_texts vs Hdts) as (ts & Hparse & Hts).
  exists vs, ts. split; [done|]. split; [done|].
  unfold get_weather_data, requests_get. rewrite Hnet. simpl.
  unfold raise_for_status. simpl. rewrite Hst. simpl. rewrite Hlist. simpl.
  rewrite for_items_mapO, Hvs. simpl. rewrite foldl_append_values. simpl.
  unfold frame_of_lists, DataFrame_of_dict. simpl.
  rewrite !length_fmap, Nat.eqb_refl. simpl.
  assert (vs = [] \/ vs <> []) as [->|Hne] by (destruct vs; [by left|by right]).
  { apply Forall2_nil_inv_l in Hts as ->. reflexivity. }
  rewrite (sanitize_texts (v_dt_txt <$> vs)).
  - simpl. rewrite Hparse. reflexivity.
  - by destruct vs.
  - apply Forall_fmap. eapply Forall_impl; [exact Hdts|].
    intros v' (s & t & Hs & _). simpl. eauto.
Qed.

Lemma frame_of_values_wf vs ts :
  length ts = length vs -> wf_frame (frame_of_values vs ts).
Proof.
  intros Hlen. unfold wf_frame, frame_of_values, nrows.
  assert (col_len (Datetime64 (Some <$> ts)) = length vs) as ->.
  { unfold col_len. simpl. by rewrite !length_fmap. }
  repeat apply Forall_cons_2; try apply Forall_nil_2; simpl;
    rewrite ?sanitize_length, ?length_fmap; try done.
  unfold col_len. simpl. by rewrite !length_fmap.
Qed.

Lemma frame_of_values_nrows vs ts : nrows (frame_of_values vs ts) = length ts.
Proof. unfold nrows, col_len. simpl. by rewrite !length_fmap. Qed.

Lemma cell_at_sanitize df name l i v :
  column_of name df = Some (sanitize l) -> l !! i = Some v ->
  exists c, cell_at df name i = Some c /\ stored v c.
Proof.
  intros Hc Hv. unfold cell_at. rewrite Hc. simpl. by apply sanitize_stored.
Qed.

Lemma frame_of_values_row vs ts i v :
  Forall2 timestamp_of vs ts -> vs !! i = Some v ->
  row_holds (frame_of_values vs ts) i v.
Proof.
  intros Hts Hv. split.
  - destruct (Forall2_lookup_l _ _ _ _ _ Hts Hv) as (t & Ht & s & Hs & Hp).
    exists s, t. split; [done|]. split; [done|].
    unfold cell_at. simpl. by rewrite !list_lookup_fmap, Ht.
  - repeat (constructor;
            [eapply cell_at_sanitize;
             [reflexivity|by rewrite list_lookup_fmap, Hv]|]).
    constructor.
Qed.

(** C4. A response without error status whose body has a list of
    well-formed entries under [list]: [get_weather_data] returns a frame
    with the ten columns and one row per entry, row [i] holding the values
    looked up in entry [i]. *)
Theorem fetch_one_row_per_entry net api_key city_id status body items :
  net city_id api_key = Response status body ->
  http_error status = false ->
  getitem body "list" = Return (PList items) ->
  forallb valid_entry items = true ->
  exists df,
    get_weather_data net api_key city_id = Return (Some df) /\
    columns df = fetch_columns /\ wf_frame df /\
    nrows df = length items /\
    forall i item, items !! i = Some item ->
      exists v, lookups item = Return v /\ row_holds df i v.
Proof.
  intros Hnet Hst Hlist Hvalid.
  destruct (get_weather_data_frame _ _ _ _ _ _ Hnet Hst Hlist Hvalid)
    as (vs & ts & Hvs & Hts & Hget).
  pose proof (mapO_length _ _ _ Hvs) as Hlen.
  pose proof (Forall2_length _ _ _ Hts) as Hlen'.
  exists (frame_of_values vs ts). split; [done|]. split; [done|].
  split; [apply frame_of_values_wf; congruence|].
  split; [rewrite frame_of_values_nrows; congruence|].
  intros i item Hitem.
  destruct (mapO_lookup _ _ _ _ _ Hvs Hitem) as (v & Hv & Hl).
  exists v. split; [done|]. by apply frame_of_values_row.
Qed.

Lemma fetch_one_row_per_entry_witness :
  exists df,
    get_weather_data two_net API_KEY "1273294" = Return (Some df) /\
    columns df = fetch_columns /\ wf_frame df /\
    nrows df = length [delhi_entry; rainy_entry] /\
    forall i item, [delhi_entry; rainy_entry] !! i = Some item ->
      exists v, lookups item = Return v /\ row_holds df i v.
Proof.
  apply (fetch_one_row_per_entry two_net API_KEY "1273294" 200 two_entries
           [delhi_entry; rainy_entry]); reflexivity.
Defined.

Lemma stored_zero c : stored (PInt 0) c -> is_zero c.
Proof.
  intros [->|[(z & [= <-] & ->)|[[=] _]]]; [by left|by right].
Qed.

Lemma stored_null c : stored PNone c -> is_null c.
Proof.
  intros [->|[(z & [=] & _)|[_ ->]]]; [by left|right; by left].
Qed.

(** C5. In such a response, the row of an entry without [rain] (or with a
    [rain] without [3h]) holds the number zero as its rainfall, and the
    row of an entry without [visibility] holds a null there; the frame is
    returned with all its rows. *)
Theorem fetch_optional_defaults net api_key city_id status body items i item :
  net city_id api_key = Response status body ->
  http_error status = false ->
  getitem body "list" = Return (PList items) ->
  forallb valid_entry items = true ->
  items !! i = Some item ->
  exists df,
    get_weather_data net api_key city_id = Return (Some df) /\
    nrows df = length items /\
    (lacks_rain item = true ->
       exists c, cell_at df "rainfall" i = Some c /\ is_zero c) /\
    (lacks_visibility item = true ->
       exists c, cell_at df "visibility" i = Some c /\ is_null c).
Proof.
  intros Hnet Hst Hlist Hvalid Hitem.
  destruct (get_weather_data_frame _ _ _ _ _ _ Hnet Hst Hlist Hvalid)
    as (vs & ts & Hvs & Hts & Hget).
  pose proof (mapO_length _ _ _ Hvs) as Hlen.
  pose proof (Forall2_length _ _ _ Hts) as Hlen'.
  destruct (mapO_lookup _ _ _ _ _ Hvs Hitem) as (v & Hv & Hl).
  exists (frame_of_values vs ts). split; [done|].
  split; [rewrite frame_of_values_nrows; congruence|]. split.
  - intros Hrain.
    destruct (cell_at_sanitize (frame_of_values vs ts) "rainfall"
                (v_rain <$> vs) i (v_rain v)) as (c & Hc & Hs);
      [reflexivity|by rewrite list_lookup_fmap, Hv|].
    exists c. split; [done|]. apply stored_zero.
    by rewrite <- (lookups_lacks_rain item v Hl Hrain).
  - intros Hvis.
    destruct (cell_at_sanitize (frame_of_values vs ts) "visibility"
                (v_visibility <$> vs) i (v_visibility v)) as (c & Hc & Hs);
      [reflexivity|by rewrite list_lookup_fmap, Hv|].
    exists c. split; [done|]. apply stored_null.
    by rewrite <- (lookups_lacks_visibility item v Hl Hvis).
Qed.

Lemma fetch_optional_defaults_witness :
  exists df,
    get_weather_data two_net API_KEY "1273294" = Return (Some df) /\
    nrows df = length [delhi_entry; rainy_entry] /\
    (lacks_rain delhi_entry = true ->
       exists c, cell_at df "rainfall" 0 = Some c /\ is_zero c) /\
    (lacks_visibility delhi_entry = true ->
       exists c, cell_at df "visibility" 0 = Some c /\ is_null c).
Proof.
  apply (fetch_optional_defaults two_net API_KEY "1273294" 200 two_entries
           [delhi_entry; rainy_entry] 0 delhi_entry); reflexivity.
Defined.

(** In the frame of [two_entries] the rainfall column is [float64] (zero
    for the first entry), the visibility column [float64] with a [nan]. *)
Example two_entries_defaults :
  exists df,
    get_weather_data two_net API_KEY "1273294" = Return (Some df) /\
    column_of "rainfall" df = Some (Float64 [FDec 0 0; FDec 12 (-1)]) /\
    column_of "visibility" df = Some (Float64 [FNaN; FDec 8000 0]).
Proof. eexists. split; [reflexivity|]. split; reflexivity. Qed.

(** ** Termination of the program *)

Lemma get_weather_data_ok net api_key city_id :
  fetch_ok (net city_id api_key) = true ->
  exists o, get_weather_data net api_key city_id = Return o.
Proof.
  unfold fetch_ok. destruct (net city_id api_key) as [|status body|status] eqn:Hnet.
  3:{ intros Hst. exists None. unfold get_weather_data, requests_get.
      rewrite Hnet. simpl. unfold raise_for_status. simpl. by rewrite Hst. }
  - intros _. exists None. unfold get_weather_data, requests_get. by rewrite Hnet.
  - destruct (http_error status) eqn:Hst; simpl.
    + intros _. exists None. unfold get_weather_data, requests_get.
      rewrite Hnet. simpl. unfold raise_for_status. simpl. by rewrite Hst.
    + unfold valid_body. destruct body as [| | | | | |d]; try done.
      destruct (dict_lookup "list" d) as [[| | | | |items|]|] eqn:Hd; try done.
      intros Hvalid.
      destruct (get_weather_data_frame net api_key city_id status (PDict d) items)
        as (vs & ts & _ & _ & Hget); try done.
      * simpl. by rewrite Hd.
      * eauto.
Qed.

Lemma fetch_all_ok net cities acc :
  (forall city city_id, (city, city_id) ∈ cities ->
     fetch_ok (net city_id API_KEY) = true) ->
  exists frames, fetch_all net cities acc = Return frames.
Proof.
  revert acc. induction cities as [|[city city_id] rest IH]; intros acc Hall.
  - by exists acc.
  - simpl.
    destruct (get_weather_data_ok net API_KEY city_id) as [o ->].
    { apply (Hall city). apply list_elem_of_here. }
    simpl. destruct o; apply IH; intros c i Hci; apply (Hall c i);
      by apply list_elem_of_further.
Qed.

(** C1 (as amended). When every city either does not answer, answers with
    an error status, or answers with a body of well-formed entries, the
    program ends normally, whatever the state of the file and whatever
    failure reading or writing it meets. *)
Theorem run_exits_normally net cities w :
  (forall city city_id, (city, city_id) ∈ cities ->
     fetch_ok (net city_id API_KEY) = true) ->
  (run net cities w).2 = ExitNormal.
Proof.
  intros Hall. unfold run.
  destruct (fetch_all_ok net cities [] Hall) as [frames ->].
  destruct frames as [|f frames]; [done|].
  pose proof (save_never_raises (concat (f :: frames)) output_path w) as Hs.
  destruct (save_weather_data (concat (f :: frames)) output_path w) as [w' r].
  simpl in Hs. by rewrite Hs.
Qed.

Lemma run_exits_normally_witness :
  (run delhi_net CITIES unreadable).2 = ExitNormal.
Proof. apply (run_exits_normally delhi_net CITIES unreadable). reflexivity. Defined.

(** ** Masks, concat and drop_duplicates *)

Lemma duplicated_length `{EqDecision K} (seen ks : list K) :
  length (duplicated seen ks) = length ks.
Proof.
  revert seen. induction ks as [|k ks IH]; intros seen; simpl; [done|].
  case_bool_decide; simpl; by rewrite IH.
Qed.

Lemma duplicated_lookup `{EqDecision K} (seen ks : list K) i k :
  ks !! i = Some k ->
  duplicated seen ks !! i = Some (bool_decide (k ∈ seen \/ k ∈ take i ks)).
Proof.
  revert seen i. induction ks as [|k0 ks IH]; intros seen [|i]; simpl; try done.
  - intros [= ->]. case_bool_decide as Hk; simpl; f_equal; symmetry.
    + apply bool_decide_eq_true. by left.
    + apply bool_decide_eq_false. intros [?|Hn]; [done|]. by apply elem_of_nil in Hn.
  - intros Hk. case_bool_decide as Hk0; simpl; rewrite (IH _ _ Hk); f_equal;
      apply bool_decide_ext; rewrite elem_of_cons.
    + split; [tauto|]. intros [?|[->|?]]; tauto.
    + rewrite elem_of_cons. tauto.
Qed.

Lemma drop_where_fmap {A B} (f : A -> B) mask (l : list A) :
  drop_where mask (f <$> l) = f <$> drop_where mask l.
Proof.
  revert l. induction mask as [|m mask IH]; intros [|x l]; simpl; try done.
  destruct m; simpl; by rewrite IH.
Qed.

Lemma elem_of_drop_where {A} mask (l : list A) x :
  x ∈ drop_where mask l <-> exists i, mask !! i = Some false /\ l !! i = Some x.
Proof.
  revert l. induction mask as [|m mask IH]; intros [|y l]; simpl.
  - rewrite elem_of_nil. split; [done|]. by intros (i & ? & ?).
  - rewrite elem_of_nil. split; [done|]. by intros (i & ? & ?).
  - rewrite elem_of_nil. split; [done|]. by intros (i & ? & ?).
  - destruct m.
    + rewrite IH. split.
      * intros (i & ? & ?). by exists (S i).
      * intros ([|i] & ? & ?); simplify_eq/=. eauto.
    + rewrite elem_of_cons, IH. split.
      * intros [->|(i & ? & ?)]; [by exists 0|by exists (S i)].
      * intros ([|i] & ? & ?); simplify_eq/=; eauto.
Qed.

(** Row [r] of what a mask leaves is the row of [l] that [kept_rows]
    names. *)
Lemma drop_where_lookup_from {A} mask (l : list A) s r :
  length l = length mask ->
  drop_where mask l !! r =
    drop_where mask (seq s (length mask)) !! r ≫= (fun i => l !! (i - s)).
Proof.
  revert l s r. induction mask as [|m mask IH]; intros [|x l] s r Hlen;
    simplify_eq/=; [done|].
  destruct m.
  - rewrite (IH l (S s) r) by done.
    destruct (drop_where mask (seq (S s) (length mask)) !! r) as [i|] eqn:Hi;
      simpl; [|done].
    assert (S s <= i) as Hle.
    { apply list_elem_of_lookup_2, elem_of_drop_where in Hi as (k & _ & Hk).
      apply lookup_seq in Hk. lia. }
    replace (i - s) with (S (i - S s)) by lia. done.
  - destruct r as [|r]; simpl.
    + by rewrite Nat.sub_diag.
    + rewrite (IH l (S s) r) by done.
      destruct (drop_where mask (seq (S s) (length mask)) !! r) as [i|] eqn:Hi;
        simpl; [|done].
      assert (S s <= i) as Hle.
      { apply list_elem_of_lookup_2, elem_of_drop_where in Hi as (k & _ & Hk).
        apply lookup_seq in Hk. lia. }
      replace (i - s) with (S (i - S s)) by lia. done.
Qed.

Lemma drop_where_lookup {A} mask (l : list A) r :
  length l = length mask ->
  drop_where mask l !! r = kept_rows mask !! r ≫= (fun i => l !! i).
Proof.
  intros Hlen. unfold kept_rows. rewrite (drop_where_lookup_from mask l 0 r Hlen).
  destruct (drop_where mask (seq 0 (length mask)) !! r); simpl; [|done].
  by rewrite Nat.sub_0_r.
Qed.

Lemma elem_of_kept_rows mask i :
  i ∈ kept_rows mask <-> mask !! i = Some false.
Proof.
  unfold kept_rows. rewrite elem_of_drop_where. split.
  - intros (k & Hk & Hi). apply lookup_seq in Hi as [-> _]. done.
  - intros Hi. exists i. split; [done|]. apply lookup_seq. split; [done|].
    by apply lookup_lt_Some in Hi.
Qed.

Lemma drop_where_sorted mask s n :
  StronglySorted lt (drop_where mask (seq s n)).
Proof.
  revert s n. induction mask as [|m mask IH]; intros s [|n]; simpl;
    try constructor.
  - destruct m; [apply IH|]. constructor; [apply IH|].
    apply Forall_forall. intros i (k & _ & Hk)%elem_of_drop_where.
    apply lookup_seq in Hk. lia.
Qed.

Lemma elem_of_drop_duplicated `{EqDecision K} (seen l : list K) x :
  x ∈ drop_where (duplicated seen l) l <-> x ∈ l /\ x ∉ seen.
Proof.
  revert seen. induction l as [|k l IH]; intros seen; simpl.
  - rewrite elem_of_nil. tauto.
  - case_bool_decide as Hk; simpl.
    + rewrite IH, elem_of_cons. split; [tauto|].
      intros [[->|?] ?]; tauto.
    + rewrite !elem_of_cons, IH, elem_of_cons. split.
      * intros [->|[? ?]]; tauto.
      * intros [[->|?] ?]; [tauto|]. destruct (decide (x = k)); tauto.
Qed.

Lemma elem_of_unique l x : x ∈ unique l <-> x ∈ l.
Proof.
  unfold unique. rewrite elem_of_drop_duplicated, elem_of_nil. tauto.
Qed.

Lemma column_of_fmap name (g : string -> column) names :
  column_of name ((fun n => (n, g n)) <$> names) =
    if bool_decide (name ∈ names) then Some (g name) else None.
Proof.
  induction names as [|n names IH]; csimpl; [done|].
  destruct (String.eqb_spec name n) as [->|Hne].
  - rewrite bool_decide_eq_true_2; [done|]. by left.
  - rewrite IH. apply (f_equal (fun b : bool => if b then _ else _)).
    apply bool_decide_ext. rewrite elem_of_cons. tauto.
Qed.

Lemma column_of_elem name f c :
  column_of name f = Some c -> (name, c) ∈ f.
Proof.
  induction f as [|[n c'] f IH]; simpl; [done|].
  destruct (String.eqb_spec name n) as [->|Hne].
  - intros [= ->]. by left.
  - intros H. right. by apply IH.
Qed.

Lemma column_of_columns name f c :
  column_of name f = Some c -> name ∈ columns f.
Proof.
  intros H%column_of_elem. unfold columns.
  apply list_elem_of_fmap. by exists (name, c).
Qed.

Lemma column_of_None name f :
  column_of name f = None <-> name ∉ columns f.
Proof.
  unfold columns. induction f as [|[n c'] f IH]; simpl.
  - split; [intros _; apply not_elem_of_nil|done].
  - destruct (String.eqb_spec name n) as [->|Hne].
    + split; [done|]. intros []. by left.
    + rewrite IH, not_elem_of_cons. tauto.
Qed.

Lemma wf_frame_col_len name f c :
  wf_frame f -> column_of name f = Some c -> col_len c = nrows f.
Proof.
  intros Hwf Hc%column_of_elem. unfold wf_frame in Hwf.
  rewrite Forall_forall in Hwf. by apply (Hwf (name, c)).
Qed.

(** Blocks put one after the other: the [j]-th element of block [k] is at
    the sum of the lengths of the blocks before it, plus [j]. *)
Lemma bind_lookup_block {A B} (g : A -> list B) (size : A -> nat) l k x j :
  Forall (fun y => length (g y) = size y) l ->
  l !! k = Some x -> j < size x ->
  (l ≫= g) !! (sum_list (size <$> take k l) + j) = g x !! j.
Proof.
  revert k. induction l as [|y l IH]; intros [|k] Hall Hk Hj; simplify_eq/=.
  - apply Forall_cons_1 in Hall as [Hy _]. rewrite lookup_app_l by lia. done.
  - apply Forall_cons_1 in Hall as [Hy Hall].
    rewrite lookup_app_r by lia.
    replace (size y + sum_list (size <$> take k l) + j - length (g y))
      with (sum_list (size <$> take k l) + j) by lia.
    by apply IH.
Qed.

Lemma bind_length_blocks {A B} (g : A -> list B) (size : A -> nat) l :
  Forall (fun y => length (g y) = size y) l ->
  length (l ≫= g) = sum_list (size <$> l).
Proof.
  induction 1 as [|y l Hy _ IH]; csimpl; [done|].
  by rewrite length_app, Hy, IH.
Qed.

(** A position below the total size lies in one of the blocks. *)
Lemma block_of_position {A} (size : A -> nat) (l : list A) i :
  i < sum_list (size <$> l) ->
  exists k x j, l !! k = Some x /\ j < size x /\
    i = sum_list (size <$> take k l) + j.
Proof.
  revert i. induction l as [|y l IH]; intros i; csimpl; [lia|].
  intros Hi. destruct (decide (i < size y)) as [Hlt|Hge].
  - exists 0, y, i. csimpl. split; [done|]. split; [done|lia].
  - destruct (IH (i - size y)) as (k & x & j & Hk & Hj & Heq); [lia|].
    exists (S k), x, j. csimpl. split; [done|]. split; [done|lia].
Qed.

Lemma join_dtype_idemp a : join_dtype a a = a.
Proof. by destruct a. Qed.

Lemma join_dtype_absorb a d : join_dtype a (join_dtype a d) = join_dtype a d.
Proof. by destruct a, d. Qed.

Lemma join_dtype_mono a b d :
  join_dtype a d = d -> join_dtype a (join_dtype b d) = join_dtype b d.
Proof. by destruct a, b, d. Qed.

Lemma present_dtype_ge ps c n :
  (Some c, n) ∈ ps ->
  exists d, present_dtype ps = Some d /\ join_dtype (dtype_of c) d = d.
Proof.
  induction ps as [|[o m] ps IH]; [by intros ?%elem_of_nil|].
  rewrite elem_of_cons. intros [[= <- <-]|Hin]; simpl.
  - destruct (present_dtype ps) as [d|]; eexists; split; try done.
    + apply join_dtype_absorb.
    + apply join_dtype_idemp.
  - destruct (IH Hin) as (d & -> & Hd). destruct o as [c'|]; simpl.
    + eexists; split; [done|]. by apply join_dtype_mono.
    + by exists d.
Qed.

Lemma common_dtype_ge ps c n :
  (Some c, n) ∈ ps -> join_dtype (dtype_of c) (common_dtype ps) = common_dtype ps.
Proof.
  intros (d & Hd & Hle)%present_dtype_ge. unfold common_dtype. rewrite Hd.
  destruct d; try done. destruct (has_missing ps); [|done].
  by destruct (dtype_of c).
Qed.

Lemma fmap_bind_list {A B C} (f : B -> C) (g : A -> list B) (l : list A) :
  f <$> (l ≫= g) = l ≫= (fun x => f <$> g x).
Proof.
  induction l as [|x l IH]; [done|].
  by rewrite !bind_cons, fmap_app, IH.
Qed.

Lemma cells_combine ps :
  cells (combine ps) = ps ≫= piece_cells (common_dtype ps).
Proof.
  unfold combine, piece_cells. destruct (common_dtype ps); simpl;
    try done; by rewrite fmap_bind_list.
Qed.

Lemma piece_cells_length d name f :
  wf_frame f -> length (piece_cells d (piece_of name f)) = nrows f.
Proof.
  intros Hwf. unfold piece_cells, piece_of.
  destruct (column_of name f) as [c|] eqn:Hc.
  - rewrite <- (wf_frame_col_len _ _ _ Hwf Hc).
    destruct d, c; simpl; unfold col_len; simpl;
      by rewrite ?length_fmap, ?length_replicate, ?length_fmap.
  - destruct d; simpl; by rewrite ?length_fmap, ?length_replicate.
Qed.

Lemma upcast_refl c : upcast c c.
Proof. by left. Qed.

Lemma Forall2_upcast_refl l : Forall2 upcast l l.
Proof. apply Forall_Forall2_diag, Forall_forall. intros; apply upcast_refl. Qed.

Lemma piece_cells_upcast d c n :
  join_dtype (dtype_of c) d = d ->
  Forall2 upcast (cells c) (piece_cells d (Some c, n)).
Proof.
  destruct c as [l|l|l|l], d; simpl; try done; intros _;
    try apply Forall2_upcast_refl.
  rewrite <- list_fmap_compose. apply Forall2_fmap, Forall_Forall2_diag, Forall_forall.
  intros z _. right. by exists z.
Qed.

Lemma bind_pieces {B} name frames (g : piece -> list B) :
  pieces name frames ≫= g = frames ≫= (fun f => g (piece_of name f)).
Proof. unfold pieces. by rewrite list_fmap_bind. Qed.

Lemma column_of_concat name frames :
  column_of name (concat frames) =
    if bool_decide (name ∈ frames ≫= columns)
    then Some (combine (pieces name frames)) else None.
Proof.
  unfold concat.
  rewrite (column_of_fmap name (fun n => combine (pieces n frames))).
  apply (f_equal (fun b : bool => if b then _ else _)).
  apply bool_decide_ext, elem_of_unique.
Qed.

Lemma col_len_combine name frames :
  Forall wf_frame frames ->
  col_len (combine (pieces name frames)) = sum_list (nrows <$> frames).
Proof.
  intros Hwf. unfold col_len. rewrite cells_combine, bind_pieces.
  apply bind_length_blocks.
  eapply Forall_impl; [exact Hwf|]. intros f Hf. simpl.
  by apply piece_cells_length.
Qed.

Lemma nrows_no_columns (f : DataFrame) : columns f = [] -> nrows f = 0.
Proof. by destruct f. Qed.

Lemma concat_nrows frames :
  Forall wf_frame frames -> nrows (concat frames) = sum_list (nrows <$> frames).
Proof.
  intros Hwf. unfold concat.
  destruct (unique (frames ≫= columns)) as [|n names] eqn:Hu; csimpl.
  - assert (Forall (fun f => nrows f = 0) frames) as Hz.
    { apply Forall_forall. intros f Hf. apply nrows_no_columns.
      destruct (columns f) as [|x xs] eqn:Hc; [done|].
      assert (x ∈ unique (frames ≫= columns)) as Hx.
      { apply elem_of_unique, list_elem_of_bind. exists f. split; [|done].
        rewrite Hc. by left. }
      rewrite Hu in Hx. by apply elem_of_nil in Hx. }
    clear -Hz. induction Hz as [|f fs Hf _ IH]; csimpl; [done|]. lia.
  - by apply col_len_combine.
Qed.

Lemma concat_columns frames : columns (concat frames) = unique (frames ≫= columns).
Proof.
  unfold columns, concat. rewrite <- list_fmap_compose. apply list_fmap_id.
Qed.

Lemma concat_wf frames : Forall wf_frame frames -> wf_frame (concat frames).
Proof.
  intros Hwf. unfold wf_frame. rewrite (concat_nrows frames Hwf).
  unfold concat. apply Forall_fmap, Forall_forall. intros name _. simpl.
  by apply col_len_combine.
Qed.

(** Row [j] of frame [k] is row [offset frames k + j] of the result; a cell
    keeps its value, an integer in a column that became [float64] as the
    float of that integer. *)
Lemma concat_cell frames k f j name c :
  Forall wf_frame frames -> frames !! k = Some f ->
  cell_at f name j = Some c ->
  exists c', cell_at (concat frames) name (offset frames k + j) = Some c' /\
    upcast c c'.
Proof.
  intros Hwf Hk Hc. unfold cell_at in Hc.
  destruct (column_of name f) as [col|] eqn:Hcol; [|done]. simpl in Hc.
  assert (wf_frame f) as Hf.
  { rewrite Forall_forall in Hwf. apply Hwf. by eapply list_elem_of_lookup_2. }
  assert (j < nrows f) as Hj.
  { rewrite <- (wf_frame_col_len _ _ _ Hf Hcol). by apply lookup_lt_Some in Hc. }
  assert (f ∈ frames) as Hin by by eapply list_elem_of_lookup_2.
  unfold cell_at. rewrite column_of_concat, bool_decide_eq_true_2.
  2:{ apply list_elem_of_bind. exists f. split; [|done].
      by eapply column_of_columns. }
  simpl. rewrite cells_combine, bind_pieces. unfold offset.
  rewrite (bind_lookup_block _ nrows frames k f j); [|..|done|done].
  2:{ eapply Forall_impl; [exact Hwf|]. intros f' Hf'. simpl.
      by apply piece_cells_length. }
  simpl. unfold piece_of. rewrite Hcol.
  assert (Forall2 upcast (cells col)
            (piece_cells (common_dtype (pieces name frames)) (Some col, nrows f)))
    as Hup.
  { apply piece_cells_upcast, (common_dtype_ge _ _ (nrows f)).
    unfold pieces. apply list_elem_of_fmap. exists f. split; [|done].
    unfold piece_of. by rewrite Hcol. }
  destruct (Forall2_lookup_l _ _ _ _ _ Hup Hc) as (c' & Hc' & Hcc'). eauto.
Qed.

(** ** drop_duplicates *)

Lemma frame_keys_length subset df keys :
  frame_keys subset df = Return keys -> length keys = nrows df.
Proof.
  unfold frame_keys. intros H. bind_inv H. injection H as <-.
  by rewrite length_fmap, length_seq.
Qed.

Lemma cells_drop_column mask c :
  cells (drop_column mask c) = drop_where mask (cells c).
Proof. destruct c; simpl; by rewrite ?drop_where_fmap. Qed.

Lemma column_of_prod_map (g : column -> column) name df :
  column_of name (prod_map id g <$> df) = g <$> column_of name df.
Proof.
  induction df as [|[n c] df IH]; csimpl; [done|].
  by destruct (String.eqb name n).
Qed.

Lemma columns_prod_map (g : column -> column) df :
  columns (prod_map id g <$> df) = columns df.
Proof.
  unfold columns. rewrite <- list_fmap_compose. by apply list_fmap_ext; intros ? [].
Qed.

(** What [drop_duplicates] returns: the rows its mask keeps. *)
Lemma drop_duplicates_rows subset df keys :
  wf_frame df -> frame_keys subset df = Return keys ->
  exists out, drop_duplicates subset df = Return out /\
    rows_selected (kept_rows (duplicated [] keys)) df out.
Proof.
  intros Hwf Hkeys. pose proof (frame_keys_length _ _ _ Hkeys) as Hlen.
  unfold drop_duplicates. destruct (Nat.eqb_spec (nrows df) 0) as [Hz|Hnz].
  - exists df. split; [done|]. split; [done|]. intros name r.
    destruct keys; [|simpl in Hlen; lia]. simpl.
    unfold cell_at. destruct (column_of name df) as [c|] eqn:Hc; [|done]. simpl.
    apply lookup_ge_None.
    pose proof (wf_frame_col_len _ _ _ Hwf Hc) as Hl. unfold col_len in Hl. lia.
  - unfold frame_duplicated. rewrite Hkeys. simpl. eexists. split; [done|].
    split; [apply columns_prod_map|]. intros name r. unfold cell_at.
    rewrite column_of_prod_map.
    destruct (column_of name df) as [c|] eqn:Hc; simpl.
    + rewrite cells_drop_column. rewrite drop_where_lookup.
      * by destruct (kept_rows (duplicated [] keys) !! r).
      * rewrite duplicated_length, Hlen.
        apply (wf_frame_col_len _ _ _ Hwf Hc).
    + by destruct (kept_rows (duplicated [] keys) !! r).
Qed.

Lemma first_occurrence_take `{EqDecision K} (keys : list K) i k :
  keys !! i = Some k -> k ∉ take i keys <-> first_occurrence keys i.
Proof.
  intros Hk. unfold first_occurrence. rewrite Hk. split.
  - intros Hn j Hj Hjk. apply Hn. apply list_elem_of_lookup. exists j.
    by rewrite lookup_take_lt.
  - intros Hf (j & Hj)%list_elem_of_lookup.
    destruct (decide (j < i)) as [Hlt|Hge].
    + rewrite lookup_take_lt in Hj by done. by apply (Hf j).
    + rewrite lookup_take_ge in Hj by lia. done.
Qed.

(** The mask of [duplicated] keeps a row exactly when its key occurs in no
    earlier row. *)
Lemma elem_of_kept_duplicated `{EqDecision K} (keys : list K) i :
  i ∈ kept_rows (duplicated [] keys) <-> i < length keys /\ first_occurrence keys i.
Proof.
  rewrite elem_of_kept_rows. split.
  - intros Hm. assert (i < length keys) as Hi.
    { apply lookup_lt_Some in Hm. by rewrite duplicated_length in Hm. }
    split; [done|]. destruct (lookup_lt_is_Some_2 keys i Hi) as [k Hk].
    rewrite (duplicated_lookup [] keys i k Hk) in Hm. injection Hm as Hm.
    apply bool_decide_eq_false in Hm. apply (first_occurrence_take keys i k Hk).
    tauto.
  - intros [Hi Hf]. destruct (lookup_lt_is_Some_2 keys i Hi) as [k Hk].
    rewrite (duplicated_lookup [] keys i k Hk). f_equal.
    apply bool_decide_eq_false. rewrite elem_of_nil.
    apply (first_occurrence_take keys i k Hk) in Hf. tauto.
Qed.

Lemma first_occurrence_before `{EqDecision K} (keys : list K) i :
  i < length keys ->
  exists i0, i0 <= i /\ keys !! i0 = keys !! i /\ first_occurrence keys i0.
Proof.
  induction (lt_wf i) as [i _ IH]. intros Hi.
  destruct (lookup_lt_is_Some_2 keys i Hi) as [k Hk].
  destruct (decide (k ∈ take i keys)) as [Hin|Hnin].
  - apply list_elem_of_lookup in Hin as (j & Hj).
    assert (j < i) as Hlt.
    { apply lookup_lt_Some in Hj. rewrite length_take in Hj. lia. }
    rewrite lookup_take_lt in Hj by done.
    destruct (IH j Hlt) as (i0 & Hle & Heq & Hf); [lia|].
    exists i0. split; [lia|]. split; [congruence|done].
  - exists i. split; [done|]. split; [done|].
    by apply (first_occurrence_take keys i k Hk).
Qed.

(** ** read_csv returns well-formed frames *)

Lemma infer_column_length fields : col_len (infer_column fields) = length fields.
Proof.
  unfold infer_column, col_len.
  repeat case_match; simpl; by rewrite ?length_fmap, ?length_replicate.
Qed.

Lemma read_csv_lines_wf lines df :
  read_csv_lines lines = Return df -> wf_frame df.
Proof.
  unfold read_csv_lines.
  destruct (filter _ lines) as [|header rows]; [done|].
  destruct (existsb _ rows); [done|]. intros [= <-].
  unfold wf_frame. apply Forall_lookup. intros i [n c] Hi.
  rewrite list_lookup_imap in Hi.
  destruct (header !! i) as [name|] eqn:Hh; simplify_eq/=.
  rewrite infer_column_length, length_fmap.
  destruct header as [|h header]; [done|]. simpl.
  by rewrite infer_column_length, length_fmap.
Qed.

Lemma read_csv_wf filename w df :
  read_csv filename w = Return df -> wf_frame df.
Proof.
  unfold read_csv. destruct (read_fault w); [done|].
  destruct (files w !! filename); [|done]. apply read_csv_lines_wf.
Qed.

(** ** The merge of save_weather_data *)

Lemma offset_0 frames : offset frames 0 = 0.
Proof. unfold offset. by rewrite take_0. Qed.

Lemma offset_1 f frames : offset (f :: frames) 1 = nrows f.
Proof. unfold offset. csimpl. lia. Qed.

Lemma getcol_Return df name c :
  getcol df name = Return c -> column_of name df = Some c.
Proof. unfold getcol. destruct (column_of name df); [|done]. by intros [= ->]. Qed.

Lemma column_keys_lookup df name c ks i :
  wf_frame df -> column_of name df = Some c -> column_keys c = Return ks ->
  i < nrows df ->
  exists ct kt, cell_at df name i = Some ct /\ cell_key ct = Return kt /\
    ks !! i = Some kt.
Proof.
  intros Hwf Hc Hks Hi. unfold column_keys in Hks.
  pose proof (wf_frame_col_len _ _ _ Hwf Hc) as Hlen. unfold col_len in Hlen.
  destruct (lookup_lt_is_Some_2 (cells c) i) as [ct Hct]; [lia|].
  destruct (mapO_lookup _ _ _ _ _ Hks Hct) as (kt & Hkt & Hk).
  exists ct, kt. unfold cell_at. rewrite Hc. done.
Qed.

(** The key of a row: the hashes of its timestamp and of its city. *)
Lemma merge_keys_cells df keys i k :
  wf_frame df -> frame_keys merge_key df = Return keys -> keys !! i = Some k ->
  key_of_row df i k.
Proof.
  intros Hwf Hkeys Hk. pose proof (frame_keys_length _ _ _ Hkeys) as Hlen.
  assert (i < nrows df) as Hi by (apply lookup_lt_Some in Hk; lia).
  unfold frame_keys, merge_key in Hkeys. simpl in Hkeys. outcome_inv.
  simpl in *. outcome_inv.
  repeat match goal with
         | H : getcol _ _ = Return _ |- _ => apply getcol_Return in H
         end.
  rewrite list_lookup_fmap, lookup_seq_lt in Hk by done. simplify_eq/=.
  match goal with
  | H1 : column_of "timestamp" df = Some ?c1, K1 : column_keys ?c1 = Return ?k1,
    H2 : column_of "city" df = Some ?c2, K2 : column_keys ?c2 = Return ?k2 |- _ =>
      destruct (column_keys_lookup df "timestamp" c1 k1 i Hwf H1 K1 Hi)
        as (ct & kt & Hct & Hkt & ->);
      destruct (column_keys_lookup df "city" c2 k2 i Hwf H2 K2 Hi)
        as (cc & kc & Hcc & Hkc & ->)
  end.
  exists ct, cc, kt, kc. done.
Qed.

Lemma upcast_key c c' : upcast c c' -> cell_key c' = cell_key c.
Proof. by intros [->|(z & -> & ->)]. Qed.

Lemma hashable_float f : hashable (Py (PFloat f)).
Proof. destruct f; by eexists. Qed.

Lemma Forall_fmap_intro {A B} (P : B -> Prop) (f : A -> B) (l : list A) :
  (forall x, P (f x)) -> Forall P (f <$> l).
Proof. intros Hf. apply Forall_fmap, Forall_forall. intros x _. apply Hf. Qed.

(** What [read_csv] puts in a column: floats, integers, booleans, texts. *)
Lemma infer_column_cells (P : cell -> Prop) fields :
  (forall f, P (Py (PFloat f))) -> (forall z, P (Py (PInt z))) ->
  (forall b, P (Py (PBool b))) -> (forall s, P (Py (PStr s))) ->
  Forall P (cells (infer_column fields)).
Proof.
  intros Hf Hz Hb Hs.
  unfold infer_column. destruct fields as [|f fs]; [apply Forall_nil_2|].
  generalize (f :: fs). intros fields.
  destruct (filter _ fields) as [|g gs].
  { apply Forall_fmap_intro; auto. }
  repeat case_match; unfold cells; apply Forall_fmap_intro; auto.
  - intros s. destruct (parse_bool s); simpl; auto.
  - intros s. destruct (is_na s); auto.
Qed.

Lemma read_csv_cells (P : cell -> Prop) filename w df name c :
  (forall f, P (Py (PFloat f))) -> (forall z, P (Py (PInt z))) ->
  (forall b, P (Py (PBool b))) -> (forall s, P (Py (PStr s))) ->
  read_csv filename w = Return df -> column_of name df = Some c ->
  Forall P (cells c).
Proof.
  intros Hf Hz Hb Hs. unfold read_csv. destruct (read_fault w); [done|].
  destruct (files w !! filename) as [lines|]; [|done]. unfold read_csv_lines.
  destruct (filter _ lines) as [|header rows]; [done|].
  destruct (existsb _ rows); [done|]. intros [= <-] Hc%column_of_elem.
  apply list_elem_of_lookup in Hc as (i & Hi). rewrite list_lookup_imap in Hi.
  destruct (header !! i); simplify_eq/=. by apply infer_column_cells.
Qed.

Lemma read_csv_hashable filename w df name c :
  read_csv filename w = Return df -> column_of name df = Some c ->
  Forall hashable (cells c).
Proof.
  apply read_csv_cells; intros; try apply hashable_float; by eexists.
Qed.

Lemma piece_cells_missing_hashable d n : Forall hashable (piece_cells d (None, n)).
Proof.
  destruct d; simpl.
  - apply Forall_fmap_intro. intros z. by eexists.
  - apply Forall_fmap_intro, hashable_float.
  - apply Forall_replicate. by eexists.
  - apply Forall_fmap_intro. intros [t|]; by eexists.
Qed.

Lemma piece_cells_hashable ps c n :
  (Some c, n) ∈ ps -> Forall hashable (cells c) ->
  Forall hashable (piece_cells (common_dtype ps) (Some c, n)).
Proof.
  intros Hin Hc.
  pose proof (piece_cells_upcast _ c n (common_dtype_ge ps c n Hin)) as Hup.
  apply Forall_lookup. intros i c' Hc'.
  destruct (Forall2_lookup_r _ _ _ _ _ Hup Hc') as (c0 & Hc0 & Hu).
  rewrite Forall_lookup in Hc. destruct (Hc i c0 Hc0) as [k Hk].
  exists k. by rewrite (upcast_key _ _ Hu).
Qed.

Lemma column_keys_total c :
  Forall hashable (cells c) <-> exists ks, column_keys c = Return ks.
Proof.
  unfold column_keys. split.
  - apply mapO_total.
  - intros [ks Hks%mapO_Forall2]. apply Forall_lookup. intros i x Hx.
    destruct (Forall2_lookup_l _ _ _ _ _ Hks Hx) as (k & _ & Hk). by exists k.
Qed.

(** A column of [concat frames] is hashable when the columns of that name
    in the frames are. *)
Lemma concat_column_keys name frames :
  name ∈ frames ≫= columns ->
  (forall f c, f ∈ frames -> column_of name f = Some c -> Forall hashable (cells c)) ->
  exists col ks, getcol (concat frames) name = Return col /\
    column_keys col = Return ks.
Proof.
  intros Hin Hall. unfold getcol.
  rewrite column_of_concat, bool_decide_eq_true_2 by done.
  destruct (proj1 (column_keys_total (combine (pieces name frames)))) as [ks Hks];
    [|by eauto].
  rewrite cells_combine, bind_pieces. apply Forall_bind, Forall_forall.
  intros f Hf. unfold piece_of. simpl.
  destruct (column_of name f) as [c|] eqn:Hc.
  - apply piece_cells_hashable; [|by eapply Hall].
    unfold pieces. apply list_elem_of_fmap. exists f. by rewrite Hc.
  - apply piece_cells_missing_hashable.
Qed.

Lemma frame_keys_columns df keys :
  frame_keys merge_key df = Return keys ->
  exists c1 c2, column_of "timestamp" df = Some c1 /\ column_of "city" df = Some c2 /\
    Forall hashable (cells c1) /\ Forall hashable (cells c2).
Proof.
  unfold frame_keys, merge_key. intros H. simpl in H. outcome_inv.
  simpl in *. outcome_inv.
  repeat match goal with
         | H : getcol _ _ = Return _ |- _ => apply getcol_Return in H
         end.
  do 2 eexists. split; [done|]. split; [done|].
  split; apply column_keys_total; eauto.
Qed.

(** The merge can key the rows of a file that was read followed by the
    rows of a keyed table. *)
Lemma merge_keys_total filename w existing df :
  read_csv filename w = Return existing -> keyed df = true ->
  exists keys, frame_keys merge_key (concat [existing; df]) = Return keys.
Proof.
  intros Hread Hkeyed. unfold keyed in Hkeyed.
  destruct (frame_keys merge_key df) as [dkeys|] eqn:Hd; [|done].
  destruct (frame_keys_columns _ _ Hd) as (c1 & c2 & H1 & H2 & Hh1 & Hh2).
  assert (forall name c0, column_of name df = Some c0 -> Forall hashable (cells c0) ->
            exists col ks, getcol (concat [existing; df]) name = Return col /\
              column_keys col = Return ks) as Hcol.
  { intros name c0 Hc0 Hh0. apply concat_column_keys.
    - apply list_elem_of_bind. exists df. split; [by eapply column_of_columns|].
      right; left.
    - intros f c Hf Hc. apply elem_of_cons in Hf as [->|Hf].
      + by eapply read_csv_hashable.
      + apply list_elem_of_singleton in Hf as ->. congruence. }
  destruct (Hcol _ _ H1 Hh1) as (col1 & ks1 & Hg1 & Hk1).
  destruct (Hcol _ _ H2 Hh2) as (col2 & ks2 & Hg2 & Hk2).
  unfold frame_keys, merge_key. simpl. rewrite Hg1, Hg2. simpl.
  rewrite Hk1, Hk2. simpl. by eexists.
Qed.

(** The merge over the keys [drop_duplicates] compares. An existing file
    was read as [existing] and the new table has a timestamp and a city
    column of hashable cells: the file is rewritten with the rows of
    [existing] followed by the rows of the new table ([all]), less every
    row whose key occurs in an earlier row ([kept] are the rows without
    such an earlier row, in order). The key of a row is the hashes of its
    two cells, and a text is never the key of a [Timestamp]: a row of
    [existing] and a row of a fetch never have the same key
    ([timestamp_rows_match_no_file_row] below). *)
Theorem save_merges_prior_first df filename w existing :
  read_csv filename w = Return existing ->
  write_fault w = None ->
  wf_frame df ->
  keyed df = true ->
  let all := concat [existing; df] in
  exists keys out,
    let kept := kept_rows (duplicated [] keys) in
    frame_keys merge_key all = Return keys /\
    save_weather_data df filename w =
      (write_file filename (to_csv_lines out) w, Return tt) /\
    rows_selected kept all out /\
    nrows all = nrows existing + nrows df /\
    (forall name i c, cell_at existing name i = Some c ->
       exists c', cell_at all name i = Some c' /\ upcast c c') /\
    (forall name j c, cell_at df name j = Some c ->
       exists c', cell_at all name (nrows existing + j) = Some c' /\ upcast c c') /\
    (forall i k, keys !! i = Some k -> key_of_row all i k) /\
    StronglySorted lt kept /\
    (forall i, i ∈ kept <-> i < nrows all /\ first_occurrence keys i) /\
    (forall i j, i < nrows existing -> j < nrows df ->
       keys !! i = keys !! (nrows existing + j) ->
       (nrows existing + j ∉ kept) /\
       exists i0, i0 <= i /\ i0 ∈ kept /\ keys !! i0 = keys !! i).
Proof.
  intros Hread Hw Hdf Hkeyed all.
  destruct (merge_keys_total _ _ _ _ Hread Hkeyed) as [keys Hkeys].
  fold all in Hkeys.
  pose proof (read_csv_wf _ _ _ Hread) as Hex.
  assert (Forall wf_frame [existing; df]) as Hwf by (by repeat constructor).
  pose proof (concat_wf _ Hwf) as Hall.
  pose proof (frame_keys_length _ _ _ Hkeys) as Hlen.
  assert (nrows all = nrows existing + nrows df) as Hn.
  { unfold all. rewrite (concat_nrows _ Hwf). csimpl. lia. }
  destruct (drop_duplicates_rows merge_key all keys Hall Hkeys) as (out & Hout & Hsel).
  exists keys, out. simpl.
  split; [done|].
  split; [|split; [done|split; [done|split; [|split; [|split; [|split; [|split]]]]]]].
  - rewrite (save_merged df out).
    + by rewrite Hw.
    + unfold merged. rewrite Hread. simpl. unfold all, merge_key in Hout.
      by rewrite Hout.
  - intros name i c Hc.
    destruct (concat_cell [existing; df] 0 existing i name c Hwf eq_refl Hc)
      as (c' & Hc' & Hup).
    rewrite offset_0 in Hc'. eauto.
  - intros name j c Hc.
    destruct (concat_cell [existing; df] 1 df j name c Hwf eq_refl Hc)
      as (c' & Hc' & Hup).
    rewrite offset_1 in Hc'. eauto.
  - intros i k Hk. by apply (merge_keys_cells all keys).
  - apply drop_where_sorted.
  - intros i. rewrite elem_of_kept_duplicated. by rewrite Hlen.
  - intros i j Hi Hj Heq. split.
    + rewrite elem_of_kept_duplicated. intros [_ Hf]. apply (Hf i); [lia|done].
    + destruct (first_occurrence_before keys i) as (i0 & Hle & Hk & Hf); [lia|].
      exists i0. split; [done|]. split; [|done].
      apply elem_of_kept_duplicated. split; [lia|done].
Qed.

Lemma save_merges_prior_first_witness :
  let all := concat [earlier_frame; text_frame] in
  exists keys out,
    let kept := kept_rows (duplicated [] keys) in
    frame_keys merge_key all = Return keys /\
    save_weather_data text_frame output_path earlier_run =
      (write_file output_path (to_csv_lines out) earlier_run, Return tt) /\
    rows_selected kept all out /\
    nrows all = nrows earlier_frame + nrows text_frame /\
    (forall name i c, cell_at earlier_frame name i = Some c ->
       exists c', cell_at all name i = Some c' /\ upcast c c') /\
    (forall name j c, cell_at text_frame name j = Some c ->
       exists c', cell_at all name (nrows earlier_frame + j) = Some c' /\
         upcast c c') /\
    (forall i k, keys !! i = Some k -> key_of_row all i k) /\
    StronglySorted lt kept /\
    (forall i, i ∈ kept <-> i < nrows all /\ first_occurrence keys i) /\
    (forall i j, i < nrows earlier_frame -> j < nrows text_frame ->
       keys !! i = keys !! (nrows earlier_frame + j) ->
       (nrows earlier_frame + j ∉ kept) /\
       exists i0, i0 <= i /\ i0 ∈ kept /\ keys !! i0 = keys !! i).
Proof.
  apply (save_merges_prior_first text_frame output_path earlier_run earlier_frame);
    [reflexivity|reflexivity|compute_done|reflexivity].
Defined.

(** The keys of the three rows of the merge of [text_frame] into the file
    of [earlier_run]: the first row of [text_frame] has the key of the row
    of the file. *)
Example text_frame_keys :
  frame_keys merge_key (concat [earlier_frame; text_frame]) = Return text_keys.
Proof. reflexivity. Qed.

(** The file after [text_frame] was merged into the file of
    [earlier_run]: the earlier row for 12:00 stays, the new row for 12:00
    is left out, the new row for 15:00 follows. *)
Example text_frame_merged :
  files (save_weather_data text_frame output_path earlier_run).1 !! output_path =
    Some
      [["timestamp"; "temperature"; "humidity"; "wind_speed"; "pressure";
        "visibility"; "rainfall"; "cloud_cover"; "icon"; "description"; "city"];
       ["2024-06-01 12:00:00"; "29.0"; "45"; "2.5"; "1009"; "10000.0"; "0.0";
        "20"; "02d"; "few clouds"; "Delhi"];
       ["2024-06-01 15:00:00"; "29.0"; "70"; "4.1"; "1006"; "8000.0"; "1.2";
        "90"; "10d"; "light rain"; "Delhi"]].
Proof. vm_compute. reflexivity. Qed.

(** ** Rows read from a file against rows with a Timestamp *)

Lemma untimed_float f : untimed (Py (PFloat f)).
Proof. intros t. destruct f as [|m e]; simpl; [done|]. unfold num_key. by destruct (fnorm m e). Qed.

Lemma untimed_int z : untimed (Py (PInt z)).
Proof. intros t. simpl. unfold num_key. by destruct (fnorm z 0). Qed.

Lemma piece_cells_missing_untimed d n : Forall untimed (piece_cells d (None, n)).
Proof.
  destruct d; simpl.
  - apply Forall_fmap_intro, untimed_int.
  - apply Forall_fmap_intro, untimed_float.
  - apply Forall_replicate, untimed_float.
  - rewrite fmap_replicate. by apply Forall_replicate.
Qed.

Lemma concat_cell_piece frames k f j name :
  Forall wf_frame frames -> frames !! k = Some f -> j < nrows f ->
  name ∈ frames ≫= columns ->
  cell_at (concat frames) name (offset frames k + j) =
    piece_cells (common_dtype (pieces name frames)) (piece_of name f) !! j.
Proof.
  intros Hwf Hk Hj Hin. unfold cell_at.
  rewrite column_of_concat, bool_decide_eq_true_2 by done. simpl.
  rewrite cells_combine, bind_pieces. unfold offset.
  rewrite (bind_lookup_block _ nrows frames k f j); [done|..|done|done].
  eapply Forall_impl; [exact Hwf|]. intros f' Hf'. simpl.
  by apply piece_cells_length.
Qed.

(** In [concat [existing; df]] the cells of the rows of a file that was
    read have keys that are no [Timestamp]. *)
Lemma file_rows_untimed filename w existing df name i c :
  read_csv filename w = Return existing -> wf_frame df ->
  i < nrows existing ->
  cell_at (concat [existing; df]) name i = Some c -> untimed c.
Proof.
  intros Hread Hdf Hi Hc.
  pose proof (read_csv_wf _ _ _ Hread) as Hex.
  assert (Forall wf_frame [existing; df]) as Hwf by (by repeat constructor).
  assert (name ∈ [existing; df] ≫= columns) as Hin.
  { unfold cell_at in Hc. rewrite column_of_concat in Hc.
    by case_bool_decide. }
  pose proof (concat_cell_piece [existing; df] 0 existing i name Hwf eq_refl Hi Hin)
    as Hp.
  rewrite offset_0 in Hp. change (0 + i) with i in Hp.
  rewrite Hc in Hp. symmetry in Hp.
  unfold piece_of in Hp.
  destruct (column_of name existing) as [col|] eqn:Hcol.
  - assert ((Some col, nrows existing) ∈ pieces name [existing; df]) as Hpin.
    { unfold pieces. apply list_elem_of_fmap. exists existing.
      rewrite Hcol. split; [done|by left]. }
    pose proof (piece_cells_upcast _ col (nrows existing)
                  (common_dtype_ge _ _ _ Hpin)) as Hup.
    destruct (Forall2_lookup_r _ _ _ _ _ Hup Hp) as (c0 & Hc0 & Hu).
    pose proof (read_csv_cells untimed _ _ _ _ _ untimed_float untimed_int
                  ltac:(done) ltac:(done) Hread Hcol) as Hun.
    rewrite Forall_lookup in Hun. intros t. rewrite (upcast_key _ _ Hu).
    by apply (Hun i c0).
  - pose proof (piece_cells_missing_untimed
                  (common_dtype (pieces name [existing; df])) (nrows existing)) as Hun.
    rewrite Forall_lookup in Hun. by apply (Hun i c).
Qed.

(** The defect behind C2, in general: a row of the new table whose
    timestamp is a [Timestamp] has the key of no row read from the file,
    whatever the file holds. *)
Lemma timestamp_rows_match_no_file_row filename w existing df keys l i j t :
  read_csv filename w = Return existing -> wf_frame df ->
  frame_keys merge_key (concat [existing; df]) = Return keys ->
  column_of "timestamp" df = Some (Datetime64 l) -> l !! j = Some (Some t) ->
  i < nrows existing ->
  keys !! i <> keys !! (nrows existing + j).
Proof.
  intros Hread Hdf Hkeys Hcol Hj Hi Heq.
  pose proof (read_csv_wf _ _ _ Hread) as Hex.
  assert (Forall wf_frame [existing; df]) as Hwf by (by repeat constructor).
  pose proof (concat_wf _ Hwf) as Hall.
  pose proof (frame_keys_length _ _ _ Hkeys) as Hlen.
  rewrite (concat_nrows _ Hwf) in Hlen. csimpl in Hlen.
  assert (cell_at df "timestamp" j = Some (Ts t)) as Hcell.
  { unfold cell_at. rewrite Hcol. simpl. by rewrite list_lookup_fmap, Hj. }
  assert (j < nrows df) as Hjn.
  { rewrite <- (wf_frame_col_len _ _ _ Hdf Hcol). unfold col_len. simpl.
    rewrite length_fmap. by apply lookup_lt_Some in Hj. }
  destruct (lookup_lt_is_Some_2 keys i) as [k Hk]; [lia|].
  destruct (merge_keys_cells _ _ _ _ Hall Hkeys Hk)
    as (ct & cc & kt & kc & Hct & Hkt & _ & _ & ->).
  rewrite Hk in Heq. symmetry in Heq.
  destruct (merge_keys_cells _ _ _ _ Hall Hkeys Heq)
    as (ct' & cc' & kt' & kc' & Hct' & Hkt' & _ & _ & [= <- _]).
  destruct (concat_cell [existing; df] 1 df j "timestamp" (Ts t) Hwf eq_refl Hcell)
    as (c' & Hc' & Hup).
  rewrite offset_1 in Hc'. rewrite Hc' in Hct'. injection Hct' as <-.
  rewrite (upcast_key _ _ Hup) in Hkt'. simpl in Hkt'. injection Hkt' as <-.
  by apply (file_rows_untimed _ _ _ _ _ _ _ Hread Hdf Hi Hct t).
Qed.

(** C3, on the code. The file holds a row for (2024-06-01 12:00:00, Delhi)
    and the fetch of the program gives a row for that timestamp and city
    with other values. The row of the file is read with its timestamp as
    a text, the row of the fetch has a [Timestamp]: [drop_duplicates]
    takes them for two keys, and the program writes the row of the file
    and, after it, the row of the fetch. The prior row does not replace
    the new one. *)
Theorem prior_row_does_not_win :
  file_text earlier_run output_path = Some [header_text; earlier_text] /\
  read_csv output_path earlier_run = Return earlier_frame /\
  fetch_all delhi_net delhi_registry [] = Return [delhi_frame] /\
  frame_keys merge_key (concat [earlier_frame; delhi_frame]) = Return delhi_keys /\
  file_text (run delhi_net delhi_registry earlier_run).1 output_path =
    Some [header_text; earlier_text; delhi_text].
Proof. vm_compute. repeat split. Qed.

(** ** The frames of the driver *)

Lemma to_datetime_length c c' :
  to_datetime c = Return c' -> col_len c' = col_len c.
Proof.
  destruct c as [l|[|x l]|l|l]; simpl; try done.
  - by intros [= <-].
  - destruct (mapO parse_cell l) as [ts|e] eqn:Hts; simpl; [|done].
    intros [= <-]. unfold col_len. simpl.
    by rewrite length_fmap, (mapO_length _ _ _ Hts).
  - by intros [= <-].
Qed.

(** Whatever frame [get_weather_data] returns has the ten columns of the
    source, all of one length. *)
Lemma get_weather_data_shape net api_key city_id df :
  get_weather_data net api_key city_id = Return (Some df) ->
  columns df = fetch_columns /\ wf_frame df.
Proof.
  unfold get_weather_data, try_except.
  match goal with
  | |- match ?b with _ => _ end = _ -> _ => destruct b as [o|e] eqn:Hb
  end.
  2:{ by destruct (is_RequestException e). }
  intros [= ->]. outcome_inv.
  match goal with
  | H : for_items _ _ = Return _ |- _ =>
      apply for_items_Return in H as (vs & Hvs & ->)
  end.
  rewrite foldl_append_values in *. simpl in *.
  match goal with
  | H : frame_of_lists _ = Return _ |- _ =>
      unfold frame_of_lists, DataFrame_of_dict in H; simpl in H;
      rewrite !length_fmap, Nat.eqb_refl in H; simpl in H; injection H as <-
  end.
  match goal with
  | H : getcol _ _ = Return _ |- _ => apply getcol_Return in H; simpl in H;
      injection H as <-
  end.
  match goal with
  | H : to_datetime _ = Return _ |- _ => apply to_datetime_length in H;
      rewrite sanitize_length, length_fmap in H; rename H into Hts
  end.
  split; [done|]. unfold wf_frame. simpl. rewrite Hts.
  repeat apply Forall_cons_2; try apply Forall_nil_2; simpl;
    by rewrite ?sanitize_length, ?length_fmap.
Qed.

Lemma setitem_fresh name c df :
  name ∉ columns df -> setitem name c df = (df ++ [(name, c)])%list.
Proof.
  unfold columns. induction df as [|[n c'] df IH]; csimpl; [done|].
  rewrite not_elem_of_cons. intros [Hne Hnin].
  destruct (String.eqb_spec name n) as [->|_]; [done|]. by rewrite IH.
Qed.

Lemma column_of_app_l name df df' c :
  column_of name df = Some c -> column_of name (df ++ df')%list = Some c.
Proof.
  induction df as [|[n c'] df IH]; simpl; [done|].
  by destruct (String.eqb name n).
Qed.

Lemma column_of_app_r name df df' :
  column_of name df = None -> column_of name (df ++ df')%list = column_of name df'.
Proof.
  induction df as [|[n c'] df IH]; simpl; [done|].
  by destruct (String.eqb name n).
Qed.

Lemma city_not_fetched : "city" ∉ fetch_columns.
Proof. unfold fetch_columns. rewrite !not_elem_of_cons, elem_of_nil. naive_solver. Qed.

(** The frame of a city after [weather_df['city'] = city]. *)
Lemma tag_city_frame city df :
  columns df = fetch_columns -> wf_frame df ->
  wf_frame (tag_city city df) /\
  nrows (tag_city city df) = nrows df /\
  (forall j, j < nrows df ->
     cell_at (tag_city city df) "city" j = Some (Py (PStr city))) /\
  (forall name j c, cell_at df name j = Some c ->
     cell_at (tag_city city df) name j = Some c).
Proof.
  intros Hcols Hwf. unfold tag_city.
  rewrite setitem_fresh by (rewrite Hcols; apply city_not_fetched).
  assert (nrows (df ++ [("city", Object (replicate (nrows df) (Py (PStr city))))])%list
          = nrows df) as Hn.
  { destruct df as [|[n c] df]; [done|]. done. }
  split; [|split; [done|split]].
  - unfold wf_frame. rewrite Hn. apply Forall_app. split; [done|].
    apply Forall_singleton. unfold col_len. simpl. by rewrite length_replicate.
  - intros j Hj. unfold cell_at. rewrite column_of_app_r.
    + simpl. by apply lookup_replicate_2.
    + apply column_of_None. rewrite Hcols. apply city_not_fetched.
  - intros name j c Hc. unfold cell_at in *.
    destruct (column_of name df) as [col|] eqn:Hcol; [|done].
    by rewrite (column_of_app_l _ _ _ _ Hcol).
Qed.

(** The frames the loop of the driver collects: one per city whose fetch
    returned a frame, tagged with the name of the city. *)
Lemma fetch_all_frames net cities acc frames :
  fetch_all net cities acc = Return frames ->
  exists new, frames = (acc ++ new)%list /\
    Forall (fun f => exists city city_id weather_df,
              (city, city_id) ∈ cities /\
              get_weather_data net API_KEY city_id = Return (Some weather_df) /\
              f = tag_city city weather_df) new.
Proof.
  revert acc. induction cities as [|[city city_id] rest IH]; intros acc; simpl.
  - intros [= <-]. exists []. by rewrite app_nil_r.
  - destruct (get_weather_data net API_KEY city_id) as [[df|]|e] eqn:Hget;
      simpl; [| |done].
    + intros (new & -> & Hnew)%IH. exists (tag_city city df :: new).
      rewrite <- app_assoc. split; [done|]. constructor.
      * exists city, city_id, df. split; [by left|done].
      * eapply Forall_impl; [exact Hnew|].
        intros f (c & i & d & Hin & ? & ?). exists c, i, d. split; [by right|done].
    + intros (new & -> & Hnew)%IH. exists new. split; [done|].
      eapply Forall_impl; [exact Hnew|].
      intros f (c & i & d & Hin & ? & ?). exists c, i, d. split; [by right|done].
Qed.

Lemma upcast_text s c' : upcast (Py (PStr s)) c' -> c' = Py (PStr s).
Proof. by intros [->|(z & [=] & _)]. Qed.

Lemma CITIES_named : Forall (fun c : string * string => c.1 <> "") CITIES.
Proof. unfold CITIES. repeat (constructor; [done|]). constructor. Qed.

(** C10. The frames the driver collected are put one after the other and
    handed to [save_weather_data]. Every row of that table comes from a
    row of the frame a city's fetch returned: it has the name of that
    city in its [city] column and the cells of that row in the others.
    The frame the fetch returned has no [city] column; a name of [CITIES]
    is never empty. *)
Theorem combined_rows_tagged net cities w frames :
  fetch_all net cities [] = Return frames ->
  let combined_df := concat frames in
  (frames <> [] ->
   run net cities w = ((save_weather_data combined_df output_path w).1, ExitNormal)) /\
  forall i, i < nrows combined_df ->
    exists city city_id weather_df j,
      (city, city_id) ∈ cities /\
      (cities = CITIES -> city <> "") /\
      get_weather_data net API_KEY city_id = Return (Some weather_df) /\
      ("city" ∉ columns weather_df) /\
      j < nrows weather_df /\
      cell_at combined_df "city" i = Some (Py (PStr city)) /\
      forall name c, cell_at weather_df name j = Some c ->
        exists c', cell_at combined_df name i = Some c' /\ upcast c c'.
Proof.
  intros Hfetch combined_df. split.
  - intros Hne. unfold run. rewrite Hfetch.
    destruct frames as [|f frames]; [done|]. fold combined_df.
    pose proof (save_never_raises combined_df output_path w) as Hs.
    destruct (save_weather_data combined_df output_path w) as [w' r].
    simpl in *. by rewrite Hs.
  - destruct (fetch_all_frames _ _ _ _ Hfetch) as (new & -> & Hnew). simpl in *.
    assert (Forall wf_frame new) as Hwf.
    { eapply Forall_impl; [exact Hnew|].
      intros f (city & city_id & df & _ & Hget & ->).
      destruct (get_weather_data_shape _ _ _ _ Hget) as [Hcols Hdf].
      by apply tag_city_frame. }
    intros i Hi. unfold combined_df in Hi. rewrite (concat_nrows _ Hwf) in Hi.
    destruct (block_of_position nrows new i Hi) as (k & f & j & Hk & Hj & ->).
    rewrite Forall_lookup in Hnew.
    destruct (Hnew k f Hk) as (city & city_id & df & Hin & Hget & ->).
    destruct (get_weather_data_shape _ _ _ _ Hget) as [Hcols Hdf].
    destruct (tag_city_frame city df Hcols Hdf) as (_ & Hn & Hcity & Hother).
    rewrite Hn in Hj.
    exists city, city_id, df, j. split; [done|]. split.
    { intros ->. pose proof CITIES_named as Hnamed.
      rewrite Forall_forall in Hnamed. apply (Hnamed _ Hin). }
    split; [done|]. split; [rewrite Hcols; apply city_not_fetched|].
    split; [done|]. split.
    + destruct (concat_cell new k _ j "city" _ Hwf Hk (Hcity j Hj))
        as (c' & Hc' & ->%upcast_text).
      exact Hc'.
    + intros name c Hc.
      apply (concat_cell new k _ j name c Hwf Hk). by apply Hother.
Qed.

Lemma combined_rows_tagged_witness :
  let combined_df := concat [delhi_frame] in
  ([delhi_frame] <> [] ->
   run delhi_net delhi_registry no_files =
     ((save_weather_data combined_df output_path no_files).1, ExitNormal)) /\
  forall i, i < nrows combined_df ->
    exists city city_id weather_df j,
      (city, city_id) ∈ delhi_registry /\
      (delhi_registry = CITIES -> city <> "") /\
      get_weather_data delhi_net API_KEY city_id = Return (Some weather_df) /\
      ("city" ∉ columns weather_df) /\
      j < nrows weather_df /\
      cell_at combined_df "city" i = Some (Py (PStr city)) /\
      forall name c, cell_at weather_df name j = Some c ->
        exists c', cell_at combined_df name i = Some c' /\ upcast c c'.
Proof.
  apply (combined_rows_tagged delhi_net delhi_registry no_files [delhi_frame]).
  reflexivity.
Defined.

(** * Further properties *)

Local Open Scope list_scope.

(** ** What a fetch raises and when it returns None *)

Lemma raises_in_Return {A} es (a : A) : raises_in es (Return a).
Proof. by intros e. Qed.

Lemma raises_in_Raise {A} es e : e ∈ es -> raises_in es (@Raise A e).
Proof. by intros He e' [= <-]. Qed.

Lemma raises_in_bind {A B} es (m : outcome A) (f : A -> outcome B) :
  raises_in es m -> (forall a, raises_in es (f a)) -> raises_in es (m ≫= f).
Proof.
  intros Hm Hf e. destruct m as [a|e']; simpl; [apply Hf|].
  intros [= <-]. by apply Hm.
Qed.

Lemma raises_in_mono {A} es es' (o : outcome A) :
  es ⊆ es' -> raises_in es o -> raises_in es' o.
Proof. intros Hsub Ho e He. apply Hsub. by apply Ho. Qed.

Lemma raises_in_fmap {A B} es (g : A -> B) (o : outcome A) :
  raises_in es o -> raises_in es (g <$> o).
Proof. intros Ho e. destruct o as [a|e']; simpl; [done|]. intros [= <-]. by apply Ho. Qed.

Lemma raises_in_mapO {A B} es (f : A -> outcome B) l :
  (forall x, raises_in es (f x)) -> raises_in es (mapO f l).
Proof.
  intros Hf. induction l as [|x l IH]; simpl; [apply raises_in_Return|].
  apply raises_in_bind; [apply Hf|]. intros y.
  apply raises_in_bind; [apply IH|]. intros ys. apply raises_in_Return.
Qed.

Ltac in_errors :=
  unfold lookup_errors; rewrite ?elem_of_app, ?elem_of_cons, ?elem_of_nil; tauto.

Ltac sub_errors :=
  let x := fresh in
  intros x; unfold lookup_errors;
  rewrite ?elem_of_app, ?elem_of_cons, ?elem_of_nil; tauto.

Lemma getitem_raises o k : raises_in lookup_errors (getitem o k).
Proof.
  destruct o as [| | | | | |d]; simpl; try (apply raises_in_Raise; in_errors).
  destruct (dict_lookup k d); [apply raises_in_Return|apply raises_in_Raise; in_errors].
Qed.

Lemma getitem0_raises o : raises_in lookup_errors (getitem0 o).
Proof.
  destruct o as [| | | |[|? ?]|[|? ?]|]; simpl;
    try apply raises_in_Return; apply raises_in_Raise; in_errors.
Qed.

Lemma get_raises o k dflt : raises_in lookup_errors (get o k dflt).
Proof.
  destruct o; simpl; try apply raises_in_Return; apply raises_in_Raise; in_errors.
Qed.

Lemma iter_raises o : raises_in lookup_errors (iter o).
Proof.
  destruct o; simpl; try apply raises_in_Return; apply raises_in_Raise; in_errors.
Qed.

Lemma lookups_raises item : raises_in lookup_errors (lookups item).
Proof.
  unfold lookups.
  repeat first
    [ apply raises_in_Return
    | apply getitem_raises | apply getitem0_raises | apply get_raises
    | apply raises_in_bind; [|intros ?] ].
Qed.

Lemma for_items_raises items a : raises_in lookup_errors (for_items items a).
Proof.
  rewrite for_items_mapO. apply raises_in_bind; [|intros; apply raises_in_Return].
  apply raises_in_mapO, lookups_raises.
Qed.

Lemma entries_of_raises body : raises_in [KeyError; TypeError] (entries_of body).
Proof.
  unfold entries_of. intros e.
  destruct body as [| | | | | |d]; simpl; try (intros [= <-]; in_errors).
  destruct (dict_lookup "list" d) as [o|]; simpl; [|intros [= <-]; in_errors].
  destruct o; simpl; try done; intros [= <-]; in_errors.
Qed.

(** The part of [get_weather_data] after the request: the entries, the
    loop, the frame. *)
Lemma get_weather_data_decode net api_key city_id status body :
  net city_id api_key = Response status body -> http_error status = false ->
  forall decode : outcome (option DataFrame),
    decode =
      (items ← entries_of body;
       a ← for_items items no_lists;
       df ← frame_of_lists a;
       ts ← (c ← getcol df "timestamp"; to_datetime c);
       Return (Some (setitem "timestamp" ts df))) ->
    get_weather_data net api_key city_id =
      try_except decode is_RequestException (fun _ => Return None).
Proof.
  intros Hnet Hst decode ->. unfold get_weather_data, requests_get.
  rewrite Hnet. simpl. unfold raise_for_status. simpl. rewrite Hst. simpl.
  unfold entries_of. by destruct (getitem body "list").
Qed.

Lemma to_datetime_raises c : raises_in [ValueError] (to_datetime c).
Proof.
  destruct c as [l|[|x l]|l|l]; simpl; try (apply raises_in_Raise; in_errors);
    [apply raises_in_Return| |apply raises_in_Return].
  apply raises_in_fmap, raises_in_mapO. intros x. unfold parse_cell.
  repeat case_match; try apply raises_in_Return; apply raises_in_Raise; in_errors.
Qed.

Lemma frame_of_lists_raises a : raises_in [ValueError] (frame_of_lists a).
Proof.
  unfold frame_of_lists, DataFrame_of_dict.
  case_match; [apply raises_in_Return|apply raises_in_Raise; in_errors].
Qed.

Lemma getcol_raises df name : raises_in [KeyError] (getcol df name).
Proof.
  unfold getcol. case_match; [apply raises_in_Return|apply raises_in_Raise; in_errors].
Qed.

Lemma decode_raises body :
  raises_in (lookup_errors ++ [ValueError])
    (items ← entries_of body;
     a ← for_items items no_lists;
     df ← frame_of_lists a;
     ts ← (c ← getcol df "timestamp"; to_datetime c);
     Return (Some (setitem "timestamp" ts df))).
Proof.
  apply raises_in_bind.
  { eapply raises_in_mono; [|apply entries_of_raises]. sub_errors. }
  intros items. apply raises_in_bind.
  { eapply raises_in_mono; [|apply for_items_raises]. sub_errors. }
  intros a. apply raises_in_bind.
  { eapply raises_in_mono; [|apply frame_of_lists_raises]. sub_errors. }
  intros df. apply raises_in_bind; [|intros; apply raises_in_Return].
  apply raises_in_bind.
  { eapply raises_in_mono; [|apply getcol_raises]. sub_errors. }
  intros c. eapply raises_in_mono; [|apply to_datetime_raises]. sub_errors.
Qed.

Lemma not_request es e :
  e ∈ (lookup_errors ++ es) -> Forall (fun x => is_RequestException x = false) es ->
  is_RequestException e = false.
Proof.
  rewrite elem_of_app. unfold lookup_errors. intros [He|He] Hes.
  - rewrite !elem_of_cons, elem_of_nil in He. by destruct He as [->|[->|[->|[->|[]]]]].
  - rewrite Forall_forall in Hes. by apply Hes.
Qed.

(** X1. [get_weather_data] returns [None] exactly when the request fails:
    there is no reply, the response has an error status, or its body is
    no JSON ([response.json()] raises a [JSONDecodeError], which is a
    [RequestException]). A response without error status whose body
    decodes never gives [None]: it gives a frame or an exception. *)
Theorem fetch_none_iff net api_key city_id :
  get_weather_data net api_key city_id = Return None <->
  request_fails (net city_id api_key) = true.
Proof.
  unfold request_fails.
  destruct (net city_id api_key) as [|status body|status] eqn:Hnet.
  { split; [done|]. intros _. unfold get_weather_data, requests_get. by rewrite Hnet. }
  2:{ split; [done|]. intros _. unfold get_weather_data, requests_get.
      rewrite Hnet. simpl. unfold raise_for_status. simpl.
      by destruct (http_error status). }
  destruct (http_error status) eqn:Hst.
  { split; [done|]. intros _. unfold get_weather_data, requests_get.
    rewrite Hnet. simpl. unfold raise_for_status. simpl. by rewrite Hst. }
  split; [|done].
  rewrite (get_weather_data_decode _ _ _ _ _ Hnet Hst _ eq_refl).
  pose proof (decode_raises body) as Hr.
  match goal with
  | |- try_except ?d _ _ = _ -> _ => destruct d as [o|e] eqn:Hd
  end; simpl.
  - intros [= ->]. outcome_inv. done.
  - rewrite (not_request [ValueError] e); [done|by apply Hr|by repeat constructor].
Qed.

(** A response without error status whose body is no JSON. *)
Example undecodable_body_gives_none :
  get_weather_data (fun _ _ => Undecodable 200) API_KEY "1273294" = Return None.
Proof. reflexivity. Qed.

Lemma getitem_inv o k v :
  getitem o k = Return v -> exists d, o = PDict d /\ dict_lookup k d = Some v.
Proof.
  destruct o as [| | | | | |d]; simpl; try done.
  destruct (dict_lookup k d) eqn:Hd; [|done]. intros [= <-]. eauto.
Qed.

Lemma get_inv o k dflt v :
  get o k dflt = Return v ->
  exists d, o = PDict d /\ v = default dflt (dict_lookup k d).
Proof. destruct o as [| | | | | |d]; simpl; try done. intros [= <-]. eauto. Qed.

Lemma getitem0_dict_inv o d :
  getitem0 o = Return (PDict d) -> exists l, o = PList (PDict d :: l).
Proof.
  destruct o as [| | | |[|? ?]|[|? ?]|]; simpl; try done. intros [= ->]. eauto.
Qed.

Lemma lookups_Return_complete item v :
  lookups item = Return v -> complete_entry item = true.
Proof.
  unfold lookups. intros H. outcome_inv.
  repeat match goal with
         | H : getitem _ _ = Return _ |- _ =>
             apply getitem_inv in H as (? & ? & ?); simplify_eq
         | H : get _ _ _ = Return _ |- _ =>
             apply get_inv in H as (? & ? & ?); simplify_eq
         | H : getitem0 _ = Return (PDict _) |- _ =>
             apply getitem0_dict_inv in H as (? & ?); simplify_eq
         end.
  unfold complete_entry, has_key.
  repeat match goal with
         | H : dict_lookup _ _ = Some _ |- _ => rewrite H; clear H
         end.
  simpl.
  match goal with
  | H : PDict _ = default _ (dict_lookup "rain" ?d) |- _ =>
      by destruct (dict_lookup "rain" d) as [[]|]
  end.
Qed.

Lemma complete_lookups_Return item :
  complete_entry item = true -> exists v, lookups item = Return v.
Proof.
  destruct item as [| | | | |?|d]; try done. unfold complete_entry, has_key.
  rewrite !andb_true_iff. intros (((((H1 & H2) & H3) & H4) & H5) & H6).
  destruct (dict_lookup "dt_txt" d) eqn:E1; [|done].
  destruct (dict_lookup "main" d) as [[| | | | | |m]|] eqn:E2; try done.
  destruct (dict_lookup "temp" m) eqn:E3, (dict_lookup "humidity" m) eqn:E4,
    (dict_lookup "pressure" m) eqn:E5; try done.
  destruct (dict_lookup "wind" d) as [[| | | | | |x]|] eqn:E6; try done.
  destruct (dict_lookup "speed" x) eqn:E7; [|done].
  destruct (dict_lookup "clouds" d) as [[| | | | | |y]|] eqn:E8; try done.
  destruct (dict_lookup "all" y) eqn:E9; [|done].
  destruct (dict_lookup "weather" d)
    as [[| | | | |[|[| | | | | |z] ?]|]|] eqn:E10; try done.
  destruct (dict_lookup "icon" z) eqn:E11, (dict_lookup "description" z) eqn:E12;
    try done.
  unfold lookups, getitem, get.
  destruct (dict_lookup "rain" d) as [[| | | | | |r]|] eqn:E13; try done;
    rewrite_lookups; by eexists.
Qed.

Lemma lookups_complete_eq item : returns (lookups item) = complete_entry item.
Proof.
  destruct (complete_entry item) eqn:Hc.
  - by destruct (complete_lookups_Return item Hc) as [v ->].
  - destruct (lookups item) as [v|e] eqn:Hl; [|done].
    by rewrite (lookups_Return_complete item v Hl) in Hc.
Qed.

(** X2. The look-ups of an entry return exactly for a complete entry, and
    what they raise otherwise is a [KeyError], a [TypeError], an
    [IndexError] or an [AttributeError]. *)
Theorem lookups_complete item :
  returns (lookups item) = complete_entry item /\
  raises_in lookup_errors (lookups item).
Proof. split; [apply lookups_complete_eq|apply lookups_raises]. Qed.

Lemma mapO_app_Raise {A B} (f : A -> outcome B) l1 x l2 e :
  Forall (fun y => returns (f y) = true) l1 -> f x = Raise e ->
  mapO f (l1 ++ x :: l2) = Raise e.
Proof.
  intros Hl Hx. induction Hl as [|y l1 Hy _ IH]; simpl.
  - by rewrite Hx.
  - destruct (f y); [|done]. simpl. by rewrite IH.
Qed.

(** X3. The first entry whose look-ups fail ends the fetch of the city:
    [get_weather_data] raises the exception of that look-up (a
    [KeyError], [TypeError], [IndexError] or [AttributeError]), which its
    handler does not catch, and returns no row of the entries before
    it. *)
Theorem fetch_aborts_on_first_bad_entry
    net api_key city_id status body good bad rest e :
  net city_id api_key = Response status body ->
  http_error status = false ->
  entries_of body = Return (good ++ bad :: rest) ->
  forallb complete_entry good = true ->
  lookups bad = Raise e ->
  e ∈ lookup_errors /\ get_weather_data net api_key city_id = Raise e.
Proof.
  intros Hnet Hst Hentries Hgood Hbad.
  assert (e ∈ lookup_errors) as He by by apply (lookups_raises bad).
  split; [done|].
  rewrite (get_weather_data_decode _ _ _ _ _ Hnet Hst _ eq_refl), Hentries. simpl.
  rewrite for_items_mapO, (mapO_app_Raise lookups good bad rest e); [|..|done].
  - simpl. rewrite (not_request [] e); [done|by rewrite app_nil_r|constructor].
  - apply Forall_forall. intros item Hitem. rewrite lookups_complete_eq.
    rewrite forallb_forall in Hgood. apply Hgood. by apply list_elem_of_In.
Qed.

Lemma fetch_aborts_on_first_bad_entry_witness :
  KeyError ∈ lookup_errors /\
  get_weather_data mixed_net API_KEY "1273294" = Raise KeyError.
Proof.
  apply (fetch_aborts_on_first_bad_entry mixed_net API_KEY "1273294" 200 mixed_body
           [delhi_entry] malformed_entry [rainy_entry] KeyError); reflexivity.
Defined.

(** X4. A reply without error status whose body gives no entries to loop
    over: [get_weather_data] raises, uncaught, a [KeyError] when the body
    is a dict without [list], and a [TypeError] when the body is no dict
    or its [list] cannot be iterated. *)
Theorem fetch_without_entries net api_key city_id status body e :
  net city_id api_key = Response status body ->
  http_error status = false ->
  entries_of body = Raise e ->
  get_weather_data net api_key city_id = Raise e /\
  e = match body with
      | PDict d => match dict_lookup "list" d with
                   | None => KeyError
                   | Some _ => TypeError
                   end
      | _ => TypeError
      end.
Proof.
  intros Hnet Hst Hentries.
  rewrite (get_weather_data_decode _ _ _ _ _ Hnet Hst _ eq_refl), Hentries. simpl.
  assert (is_RequestException e = false) as ->.
  { pose proof (entries_of_raises body e Hentries) as He.
    rewrite !elem_of_cons, elem_of_nil in He. by destruct He as [->|[->|[]]]. }
  split; [done|]. unfold entries_of in Hentries.
  destruct body as [| | | | | |d]; simpl in Hentries; try by injection Hentries.
  destruct (dict_lookup "list" d) as [o|]; simpl in Hentries; [|by injection Hentries].
  destruct o; simpl in Hentries; try done; by injection Hentries.
Qed.

Lemma fetch_without_entries_witness :
  get_weather_data no_list_net API_KEY "1273294" = Raise KeyError.
Proof.
  apply (fetch_without_entries no_list_net API_KEY "1273294" 200
           (PDict [("cod", PStr "200"); ("message", PInt 0)]) KeyError);
    reflexivity.
Defined.

(** ** save_weather_data: what it leaves alone *)

Lemma save_cases df filename w :
  save_weather_data df filename w = (w, Return tt) \/
  exists out, merged df filename w = Return out /\ write_fault w = None /\
    save_weather_data df filename w =
      (write_file filename (to_csv_lines out) w, Return tt).
Proof.
  destruct (merged df filename w) as [out|e] eqn:Hm.
  - rewrite (save_merged _ _ _ _ Hm). destruct (write_fault w) eqn:Hw; [by left|].
    right. by exists out.
  - left. by apply (save_merge_error _ e).
Qed.

(** X5. [save_weather_data] touches nothing but its file: the faults of
    the system and the files at other paths stay as they were, and either
    the whole world does, or the one write of the call is to
    [filename]. *)
Theorem save_touches_only_its_file df filename w :
  read_fault (save_weather_data df filename w).1 = read_fault w /\
  write_fault (save_weather_data df filename w).1 = write_fault w /\
  (forall path, path <> filename ->
     files (save_weather_data df filename w).1 !! path = files w !! path) /\
  ((save_weather_data df filename w).1 = w \/
   writes (save_weather_data df filename w).1 = writes w ++ [filename]).
Proof.
  destruct (save_cases df filename w) as [->|(out & _ & _ & ->)]; simpl.
  - repeat split; auto.
  - repeat split; auto. intros path Hp. by apply lookup_insert_ne.
Qed.

Lemma getcol_concat_missing name frames :
  name ∉ frames ≫= columns -> getcol (concat frames) name = Raise KeyError.
Proof.
  intros Hn. unfold getcol. by rewrite column_of_concat, bool_decide_eq_false_2.
Qed.

(** X7. The existing file was read, but neither it nor the new table has
    one of the key columns ([timestamp], [city]), and there is a row:
    [drop_duplicates] raises a [KeyError], nothing is written, and
    [save_weather_data] returns normally. *)
Theorem save_without_key_column df filename w existing name :
  read_csv filename w = Return existing ->
  wf_frame df ->
  name ∈ merge_key -> name ∉ columns existing -> name ∉ columns df ->
  0 < nrows existing + nrows df ->
  merged df filename w = Raise KeyError /\
  save_weather_data df filename w = (w, Return tt).
Proof.
  intros Hread Hdf Hname Hex Hndf Hrows.
  pose proof (read_csv_wf _ _ _ Hread) as Hwfe.
  assert (Forall wf_frame [existing; df]) as Hwf by (by repeat constructor).
  assert (merged df filename w = Raise KeyError) as Hm.
  { unfold merged. rewrite Hread. simpl. unfold drop_duplicates.
    rewrite (concat_nrows _ Hwf). csimpl.
    destruct (Nat.eqb_spec (nrows existing + (nrows df + 0)) 0) as [?|_]; [lia|].
    assert (getcol (concat [existing; df]) name = Raise KeyError) as Hg.
    { apply getcol_concat_missing. csimpl. rewrite app_nil_r, elem_of_app. tauto. }
    unfold frame_duplicated, frame_keys. simpl.
    unfold merge_key in Hname. rewrite !elem_of_cons, elem_of_nil in Hname.
    destruct Hname as [->|[->|[]]].
    - by rewrite Hg.
    - rewrite Hg.
      pose proof (getcol_raises (concat [existing; df]) "timestamp") as Hr.
      destruct (getcol (concat [existing; df]) "timestamp") as [c|e]; [done|].
      specialize (Hr e eq_refl). apply list_elem_of_singleton in Hr as ->. done. }
  split; [done|]. by apply (save_merge_error _ KeyError).
Qed.

Lemma save_without_key_column_witness :
  merged bare_frame output_path bare_file = Raise KeyError /\
  save_weather_data bare_frame output_path bare_file = (bare_file, Return tt).
Proof.
  apply (save_without_key_column bare_frame output_path bare_file
           [("temperature", Float64 [FDec 290 (-1)])] "timestamp").
  - reflexivity.
  - compute_done.
  - compute_done.
  - compute_done.
  - compute_done.
  - simpl. lia.
Defined.

(** ** The keys of the merged table *)

Lemma NoDup_drop_duplicated `{EqDecision K} (seen l : list K) :
  NoDup (drop_where (duplicated seen l) l).
Proof.
  revert seen. induction l as [|k l IH]; intros seen; simpl; [constructor|].
  case_bool_decide as Hk; simpl; [apply IH|].
  constructor; [|apply IH]. rewrite elem_of_drop_duplicated, elem_of_cons. tauto.
Qed.

Lemma mapO_drop_where {A B} (f : A -> outcome B) mask l l' :
  mapO f l = Return l' -> mapO f (drop_where mask l) = Return (drop_where mask l').
Proof.
  intros H%mapO_Forall2. apply mapO_Forall2. revert mask.
  induction H as [|x y l l' Hxy _ IH]; intros [|m mask]; simpl; try constructor.
  destruct m; [apply IH|]. constructor; [done|apply IH].
Qed.

Lemma drop_where_length_kept {A} mask (l : list A) :
  length l = length mask -> length (drop_where mask l) = length (kept_rows mask).
Proof.
  intros Hlen. unfold kept_rows.
  assert (forall s, length (drop_where mask l) =
                    length (drop_where mask (seq s (length mask)))) as H; [|apply H].
  revert l Hlen. induction mask as [|m mask IH]; intros [|x l] Hlen s;
    simplify_eq/=; [done|].
  destruct m; simpl; by rewrite (IH l) with (s := S s).
Qed.

Lemma drop_where_row_keys mask (kcols : list (list hkey)) n :
  length mask = n -> Forall (fun kc => length kc = n) kcols ->
  row_key (drop_where mask <$> kcols) <$> seq 0 (length (kept_rows mask)) =
    drop_where mask (row_key kcols <$> seq 0 n).
Proof.
  intros Hmask Hk. apply list_eq. intros r.
  rewrite (drop_where_lookup mask (row_key kcols <$> seq 0 n))
    by (by rewrite length_fmap, length_seq).
  rewrite list_lookup_fmap.
  destruct (kept_rows mask !! r) as [i|] eqn:Hi; simpl.
  - rewrite lookup_seq_lt by (by eapply lookup_lt_Some). simpl.
    assert (i < n) as Hin.
    { pose proof (list_elem_of_lookup_2 _ _ _ Hi) as Hel.
      apply elem_of_kept_rows in Hel. apply lookup_lt_Some in Hel.
      by rewrite <- Hmask. }
    rewrite list_lookup_fmap, lookup_seq_lt by done. simpl. f_equal.
    unfold row_key. rewrite <- list_fmap_compose. apply Forall_fmap_ext.
    eapply Forall_impl; [exact Hk|]. intros kc Hkc. simpl.
    rewrite drop_where_lookup by (simpl in Hkc; congruence). by rewrite Hi.
  - rewrite lookup_seq_ge; [done|]. by apply lookup_ge_None.
Qed.

Lemma getcol_prod_map (g : column -> column) df name :
  getcol (prod_map id g <$> df) name = g <$> getcol df name.
Proof. unfold getcol. rewrite column_of_prod_map. by destruct (column_of name df). Qed.

Lemma mapO_getcol_prod_map (g : column -> column) df subset cols :
  mapO (getcol df) subset = Return cols ->
  mapO (getcol (prod_map id g <$> df)) subset = Return (g <$> cols).
Proof.
  intros H%mapO_Forall2. apply mapO_Forall2.
  induction H as [|name c subset cols Hc _ IH]; csimpl; constructor; [|done].
  by rewrite getcol_prod_map, Hc.
Qed.

Lemma mapO_column_keys_drop mask cols kcols :
  mapO column_keys cols = Return kcols ->
  mapO column_keys (drop_column mask <$> cols) = Return (drop_where mask <$> kcols).
Proof.
  intros H%mapO_Forall2. apply mapO_Forall2.
  induction H as [|c kc cols kcols Hc _ IH]; csimpl; constructor; [|done].
  unfold column_keys in *. rewrite cells_drop_column. by apply mapO_drop_where.
Qed.

(** The keys of what [drop_duplicates] returns: the keys of the frame,
    each at its first occurrence. *)
Lemma drop_duplicates_keys subset df keys :
  wf_frame df -> frame_keys subset df = Return keys ->
  exists out, drop_duplicates subset df = Return out /\
    frame_keys subset out = Return (drop_where (duplicated [] keys) keys).
Proof.
  intros Hwf Hkeys. pose proof (frame_keys_length _ _ _ Hkeys) as Hlen.
  unfold drop_duplicates. destruct (Nat.eqb_spec (nrows df) 0) as [Hz|Hnz].
  { exists df. split; [done|]. destruct keys; [done|simpl in Hlen; lia]. }
  unfold frame_duplicated. rewrite Hkeys. simpl. eexists. split; [done|].
  unfold frame_keys in *.
  apply bind_Return_inv in Hkeys as (cols & Hcols & Hkeys).
  apply bind_Return_inv in Hkeys as (kcols & Hkcols & [= <-]).
  set (mask := duplicated [] (row_key kcols <$> seq 0 (nrows df))).
  rewrite (mapO_getcol_prod_map _ _ _ _ Hcols). simpl.
  rewrite (mapO_column_keys_drop _ _ _ Hkcols). simpl. f_equal.
  assert (length mask = nrows df) as Hmask.
  { unfold mask. by rewrite duplicated_length, length_fmap, length_seq. }
  assert (nrows (prod_map id (drop_column mask) <$> df) = length (kept_rows mask))
    as ->.
  { destruct df as [|[n c] df]; [done|]. csimpl. unfold col_len.
    rewrite cells_drop_column. apply drop_where_length_kept.
    rewrite Hmask. done. }
  apply drop_where_row_keys; [done|].
  apply Forall_lookup. intros i kc Hkc.
  apply mapO_Forall2 in Hkcols.
  destruct (Forall2_lookup_r _ _ _ _ _ Hkcols Hkc) as (c & Hc & Hck).
  apply mapO_Forall2 in Hcols.
  destruct (Forall2_lookup_r _ _ _ _ _ Hcols Hc) as (name & _ & Hg).
  apply getcol_Return in Hg. unfold column_keys in Hck.
  rewrite (mapO_length _ _ _ Hck). by apply (wf_frame_col_len name).
Qed.

(** X8. An existing file was read and the new table has hashable
    [timestamp] and [city] columns: the table that is written holds every
    key of the rows of the file and of the new table, and each of them
    once. *)
Theorem save_writes_each_key_once df filename w existing :
  read_csv filename w = Return existing ->
  write_fault w = None ->
  wf_frame df ->
  keyed df = true ->
  exists keys out okeys,
    frame_keys merge_key (concat [existing; df]) = Return keys /\
    save_weather_data df filename w =
      (write_file filename (to_csv_lines out) w, Return tt) /\
    frame_keys merge_key out = Return okeys /\
    NoDup okeys /\
    forall k, k ∈ okeys <-> k ∈ keys.
Proof.
  intros Hread Hw Hdf Hkeyed.
  destruct (merge_keys_total _ _ _ _ Hread Hkeyed) as [keys Hkeys].
  pose proof (read_csv_wf _ _ _ Hread) as Hex.
  assert (Forall wf_frame [existing; df]) as Hwf by (by repeat constructor).
  destruct (drop_duplicates_keys merge_key _ keys (concat_wf _ Hwf) Hkeys)
    as (out & Hout & Hokeys).
  exists keys, out, (drop_where (duplicated [] keys) keys).
  split; [done|]. split; [|split; [done|split]].
  - rewrite (save_merged df out); [by rewrite Hw|].
    unfold merged. rewrite Hread. simpl. unfold merge_key in Hout. by rewrite Hout.
  - apply NoDup_drop_duplicated.
  - intros k. rewrite elem_of_drop_duplicated, elem_of_nil. tauto.
Qed.

Lemma save_writes_each_key_once_witness :
  exists keys out okeys,
    frame_keys merge_key (concat [earlier_frame; delhi_frame]) = Return keys /\
    save_weather_data delhi_frame output_path earlier_run =
      (write_file output_path (to_csv_lines out) earlier_run, Return tt) /\
    frame_keys merge_key out = Return okeys /\
    NoDup okeys /\
    forall k, k ∈ okeys <-> k ∈ keys.
Proof.
  apply (save_writes_each_key_once delhi_frame output_path earlier_run earlier_frame).
  - reflexivity.
  - reflexivity.
  - compute_done.
  - reflexivity.
Defined.

(** ** The driver: the frames it keeps and what ends it *)

(** X9. When no fetch raises, the driver keeps one frame for every city
    whose fetch returned a table, tagged with the name of the city, in
    the order of the registry, after the frames it had; the cities whose
    fetch returned [None] leave nothing. *)
Theorem fetch_all_in_order net cities acc :
  forallb (fun c => returns (get_weather_data net API_KEY c.2)) cities = true ->
  fetch_all net cities acc = Return (acc ++ omap (fetched net) cities).
Proof.
  revert acc. induction cities as [|[city city_id] rest IH]; intros acc; simpl.
  - by rewrite app_nil_r.
  - unfold fetched at 1. simpl.
    destruct (get_weather_data net API_KEY city_id) as [[df|]|e]; simpl; [| |done].
    + intros H. rewrite (IH _ H). by rewrite <- app_assoc.
    + apply IH.
Qed.

Lemma fetch_all_in_order_witness :
  fetch_all delhi_only CITIES [] = Return ([] ++ omap (fetched delhi_only) CITIES).
Proof. apply (fetch_all_in_order delhi_only CITIES []). reflexivity. Defined.

Lemma fetch_all_Raise net before city city_id rest acc e :
  forallb (fun c => returns (get_weather_data net API_KEY c.2)) before = true ->
  get_weather_data net API_KEY city_id = Raise e ->
  fetch_all net (before ++ (city, city_id) :: rest) acc = Raise e.
Proof.
  intros Hb He. revert acc Hb.
  induction before as [|[c i] before IH]; intros acc; simpl.
  - by rewrite He.
  - destruct (get_weather_data net API_KEY i) as [[df|]|e']; simpl; [| |done];
      apply IH.
Qed.

(** X10. The first city whose fetch raises ends the program with that
    exception: the frames of the cities before it are dropped, the cities
    after it are not asked, and nothing is written. *)
Theorem run_aborts_on_first_raise net before city city_id rest w e :
  forallb (fun c => returns (get_weather_data net API_KEY c.2)) before = true ->
  get_weather_data net API_KEY city_id = Raise e ->
  run net (before ++ (city, city_id) :: rest) w = (w, Uncaught e).
Proof.
  intros Hb He. unfold run. by rewrite (fetch_all_Raise _ _ _ _ _ _ e Hb He).
Qed.

Lemma run_aborts_on_first_raise_witness :
  run second_malformed
      ([("Dehradun", "1273313")] ++ ("Delhi", "1273294") :: [("Mumbai", "1275339")])
      earlier_run =
    (earlier_run, Uncaught KeyError).
Proof.
  apply (run_aborts_on_first_raise second_malformed [("Dehradun", "1273313")]
           "Delhi" "1273294" [("Mumbai", "1275339")] earlier_run KeyError);
    reflexivity.
Defined.

Lemma run_cases net cities w :
  (exists e, fetch_all net cities [] = Raise e /\ run net cities w = (w, Uncaught e)) \/
  run net cities w = (w, ExitNormal) \/
  exists frames, fetch_all net cities [] = Return frames /\ frames <> [] /\
    run net cities w = ((save_weather_data (concat frames) output_path w).1, ExitNormal).
Proof.
  unfold run. destruct (fetch_all net cities []) as [[|f frames]|e] eqn:Hf.
  - right. by left.
  - right. right. exists (f :: frames). split; [done|]. split; [done|].
    pose proof (save_never_raises (concat (f :: frames)) output_path w) as Hs.
    destruct (save_weather_data (concat (f :: frames)) output_path w) as [w' r].
    simpl in *. by rewrite Hs.
  - left. by exists e.
Qed.

(** X11. A run of the program touches nothing but the output file, and
    writes it at most once: the faults of the system and the files at
    other paths stay as they were. It ends with an exception only when a
    fetch raised one, and then the world is as it was. *)
Theorem run_touches_only_output net cities w :
  read_fault (run net cities w).1 = read_fault w /\
  write_fault (run net cities w).1 = write_fault w /\
  (forall path, path <> output_path ->
     files (run net cities w).1 !! path = files w !! path) /\
  ((run net cities w).1 = w \/
   writes (run net cities w).1 = writes w ++ [output_path]) /\
  ((run net cities w).2 = ExitNormal \/
   exists e, fetch_all net cities [] = Raise e /\ run net cities w = (w, Uncaught e)).
Proof.
  destruct (run_cases net cities w) as [(e & He & ->)|[->|(frames & _ & _ & ->)]];
    simpl.
  - repeat split; eauto.
  - repeat split; eauto.
  - destruct (save_cases (concat frames) output_path w) as [->|(out & _ & _ & ->)];
      simpl.
    + repeat split; eauto.
    + repeat split; eauto. intros path Hp. by apply lookup_insert_ne.
Qed.

Lemma run_unreadable net cities w e :
  read_csv output_path w = Raise e -> is_FileNotFoundError e = false ->
  (run net cities w).1 = w.
Proof.
  intros Hr He.
  destruct (run_cases net cities w) as [(e' & _ & ->)|[->|(frames & _ & _ & ->)]];
    try done.
  simpl. erewrite save_merge_error; [done|].
  rewrite (merged_read_error _ e) by done. by rewrite He.
Qed.

(** X12. A file at the output path that cannot be read (the failure is no
    [FileNotFoundError]: the file is empty, malformed, or may not be
    opened) stays as it is through any number of runs, whatever the
    cities answer: no run writes. *)
Theorem unreadable_file_blocks_runs nets cities w e :
  read_csv output_path w = Raise e -> is_FileNotFoundError e = false ->
  runs nets cities w = w.
Proof.
  intros Hr He. unfold runs. induction nets as [|net nets IH]; simpl; [done|].
  by rewrite (run_unreadable net cities w e Hr He).
Qed.

Lemma unreadable_file_blocks_runs_witness :
  runs [delhi_net; two_net; down_net] CITIES empty_file = empty_file.
Proof.
  apply (unreadable_file_blocks_runs [delhi_net; two_net; down_net] CITIES empty_file
           EmptyDataError); reflexivity.
Defined.

(** ** The table of the driver and its first file *)

Lemma drop_duplicated_seen `{EqDecision K} (seen l : list K) :
  (forall x, x ∈ l -> x ∈ seen) -> drop_where (duplicated seen l) l = [].
Proof.
  induction l as [|x l IH]; intros H; simpl; [done|].
  rewrite bool_decide_eq_true_2 by (apply H; left). simpl.
  apply IH. intros y Hy. apply H. by right.
Qed.

Lemma drop_duplicated_absorb `{EqDecision K} (seen l rest : list K) :
  NoDup l -> (forall x, x ∈ l -> x ∉ seen) ->
  (forall x, x ∈ rest -> x ∈ seen \/ x ∈ l) ->
  drop_where (duplicated seen (l ++ rest)) (l ++ rest) = l.
Proof.
  revert seen. induction l as [|x l IH]; intros seen Hnd Hs Hr; simpl.
  - apply drop_duplicated_seen. intros y Hy.
    destruct (Hr y Hy) as [?|?%elem_of_nil]; done.
  - rewrite bool_decide_eq_false_2 by (apply Hs; left). simpl. f_equal.
    apply NoDup_cons in Hnd as [Hx Hnd]. apply IH; [done|..].
    + intros y Hy. rewrite not_elem_of_cons. split; [by intros ->|].
      apply Hs. by right.
    + intros y Hy. destruct (Hr y Hy) as [?|[->|?]%elem_of_cons].
      * left. by right.
      * left. by left.
      * by right.
Qed.

Lemma unique_same_columns cols f frames :
  NoDup cols -> Forall (fun g => columns g = cols) (f :: frames) ->
  unique ((f :: frames) ≫= columns) = cols.
Proof.
  intros Hnd Hall. apply Forall_cons in Hall as [Hf Hall]. csimpl. rewrite Hf.
  unfold unique. apply drop_duplicated_absorb; [done|intros x _; apply not_elem_of_nil|].
  intros x (g & Hx & Hg)%list_elem_of_bind. right.
  rewrite Forall_forall in Hall. by rewrite <- (Hall g Hg).
Qed.

Lemma tag_city_columns city df :
  columns df = fetch_columns -> columns (tag_city city df) = fetch_columns ++ ["city"].
Proof.
  intros Hc. unfold tag_city.
  rewrite setitem_fresh by (rewrite Hc; apply city_not_fetched).
  unfold columns in *. by rewrite fmap_app, Hc.
Qed.

Lemma fetch_all_shape net cities frames :
  fetch_all net cities [] = Return frames ->
  Forall (fun f => columns f = fetch_columns ++ ["city"] /\ wf_frame f) frames.
Proof.
  intros (new & -> & Hnew)%fetch_all_frames. simpl.
  eapply Forall_impl; [exact Hnew|].
  intros f (city & city_id & df & _ & Hget & ->).
  destruct (get_weather_data_shape _ _ _ _ Hget) as [Hc Hwf].
  split; [by apply tag_city_columns|]. by apply tag_city_frame.
Qed.

(** X13. The first file of the program: there is no file at the output
    path, nothing fails, and at least one city gave a frame. The run
    writes the file, with the ten column names of a fetch followed by
    [city] as its header line, and one line for every row of every frame:
    no row is dropped, whatever its timestamp and city. *)
Theorem run_writes_first_file net cities w frames :
  files w !! output_path = None -> read_fault w = None -> write_fault w = None ->
  fetch_all net cities [] = Return frames -> frames <> [] ->
  exists lines,
    run net cities w = (write_file output_path lines w, ExitNormal) /\
    lines !! 0 = Some (fetch_columns ++ ["city"]) /\
    length lines = S (sum_list (nrows <$> frames)).
Proof.
  intros Hn Hr Hw Hf Hne. exists (to_csv_lines (concat frames)).
  pose proof (fetch_all_shape _ _ _ Hf) as Hshape.
  destruct frames as [|f frames]; [done|]. split; [|split].
  - unfold run. rewrite Hf. rewrite (save_merged _ (concat (f :: frames))).
    + by rewrite Hw.
    + rewrite (merged_read_error _ FileNotFoundError); [done|].
      by apply read_csv_absent.
  - unfold to_csv_lines. simpl. f_equal. rewrite concat_columns.
    apply unique_same_columns; [compute_done|].
    eapply Forall_impl; [exact Hshape|]. by intros g [? _].
  - rewrite to_csv_lines_length, concat_nrows; [done|].
    eapply Forall_impl; [exact Hshape|]. by intros g [_ ?].
Qed.

Lemma run_writes_first_file_witness :
  exists lines,
    run delhi_only CITIES no_files = (write_file output_path lines no_files, ExitNormal) /\
    lines !! 0 = Some (fetch_columns ++ ["city"]) /\
    length lines = S (sum_list (nrows <$> omap (fetched delhi_only) CITIES)).
Proof.
  apply (run_writes_first_file delhi_only CITIES no_files
           (omap (fetched delhi_only) CITIES)).
  - reflexivity.
  - reflexivity.
  - reflexivity.
  - reflexivity.
  - vm_compute. discriminate.
Defined.

(** ** Reading back what was written *)











(** ** Rows with a Timestamp against the rows of the file *)

(** X15. An existing file was read, and row [j] of the new table has a
    [Timestamp] in its [timestamp] column: no row of the file has the key
    of that row, whatever the file holds, and the row is written unless
    an earlier row of the new table itself has its key. A row of a fetch
    is never taken for the duplicate of a row of the file. *)
Theorem timestamped_row_is_written df filename w existing l j t :
  read_csv filename w = Return existing ->
  write_fault w = None ->
  wf_frame df -> keyed df = true ->
  column_of "timestamp" df = Some (Datetime64 l) ->
  l !! j = Some (Some t) ->
  let all := concat [existing; df] in
  exists keys out,
    let kept := kept_rows (duplicated [] keys) in
    frame_keys merge_key all = Return keys /\
    save_weather_data df filename w =
      (write_file filename (to_csv_lines out) w, Return tt) /\
    rows_selected kept all out /\
    (forall i, i < nrows existing -> keys !! i <> keys !! (nrows existing + j)) /\
    (nrows existing + j ∈ kept <->
     forall j', j' < j ->
       keys !! (nrows existing + j') <> keys !! (nrows existing + j)).
Proof.
  intros Hread Hw Hdf Hkeyed Hcol Hj all.
  destruct (merge_keys_total _ _ _ _ Hread Hkeyed) as [keys Hkeys].
  pose proof (read_csv_wf _ _ _ Hread) as Hex.
  assert (Forall wf_frame [existing; df]) as Hwf by (by repeat constructor).
  destruct (drop_duplicates_rows merge_key _ keys (concat_wf _ Hwf) Hkeys)
    as (out & Hout & Hsel).
  pose proof (frame_keys_length _ _ _ Hkeys) as Hlen.
  rewrite (concat_nrows _ Hwf) in Hlen. csimpl in Hlen.
  assert (j < nrows df) as Hjn.
  { apply lookup_lt_Some in Hj.
    rewrite <- (wf_frame_col_len "timestamp" df (Datetime64 l)) by done.
    unfold col_len. simpl. by rewrite length_fmap. }
  assert (forall i, i < nrows existing -> keys !! i <> keys !! (nrows existing + j))
    as Hfile.
  { intros i Hi.
    by apply (timestamp_rows_match_no_file_row filename w existing df keys l i j t). }
  exists keys, out. simpl. split; [done|]. split; [|split; [done|split; [done|]]].
  - rewrite (save_merged df out); [by rewrite Hw|].
    unfold merged. rewrite Hread. simpl. unfold merge_key in Hout. by rewrite Hout.
  - rewrite elem_of_kept_duplicated. unfold first_occurrence. split.
    + intros [_ Hfirst] j' Hj'. apply Hfirst. lia.
    + intros Hnew. split; [lia|]. intros k Hk.
      destruct (decide (k < nrows existing)) as [Hlt|Hge]; [by apply Hfile|].
      replace k with (nrows existing + (k - nrows existing)) by lia.
      apply Hnew. lia.
Qed.

Lemma timestamped_row_is_written_witness :
  let all := concat [earlier_frame; delhi_frame] in
  exists keys out,
    let kept := kept_rows (duplicated [] keys) in
    frame_keys merge_key all = Return keys /\
    save_weather_data delhi_frame output_path earlier_run =
      (write_file output_path (to_csv_lines out) earlier_run, Return tt) /\
    rows_selected kept all out /\
    (forall i, i < nrows earlier_frame ->
       keys !! i <> keys !! (nrows earlier_frame + 0)) /\
    (nrows earlier_frame + 0 ∈ kept <->
     forall j', j' < 0 ->
       keys !! (nrows earlier_frame + j') <> keys !! (nrows earlier_frame + 0)).
Proof.
  apply (timestamped_row_is_written delhi_frame output_path earlier_run earlier_frame
           [Some (mkDatetime 2024 6 1 12 0 0)] 0 (mkDatetime 2024 6 1 12 0 0)).
  - reflexivity.
  - reflexivity.
  - compute_done.
  - reflexivity.
  - reflexivity.
  - reflexivity.
Defined.
